(** * MCP9808 thermometer driver: a shallow embedding of [mcp9808.py]

    The driver talks to the sensor through a quick2wire I2C master.  Every
    method of the Python class becomes a computation in a small monad that
    threads the state of the outside world (the bus and the list of the
    transactions issued so far) and carries Python exceptions.  Python
    integers are unbounded, so they are [Z]; a [bytearray] is a list of
    bytes; a Python float is an IEEE 754 binary64 number, modelled with the
    executable [spec_float] operations.  quick2wire turns the values of a
    write message into [bytes], which raises [ValueError] outside 0..255
    before anything is sent. *)

From Stdlib Require Import ZArith List String Bool Lia.
From Stdlib Require Import Strings.Byte QArith SpecFloat.
Import ListNotations.
Local Open Scope Z_scope.

(** ** Python exceptions and results *)

Inductive exn : Type :=
| IOError (msg : string)
| ValueError (msg : string)
| IndexError (msg : string).

Inductive result (A : Type) : Type :=
| Ok (a : A)
| Raise (e : exn).
Arguments Ok {A} a.
Arguments Raise {A} e.

Definition is_IOError {A} (r : result A) : bool :=
  match r with Raise (IOError _) => true | _ => false end.

Definition is_ValueError {A} (r : result A) : bool :=
  match r with Raise (ValueError _) => true | _ => false end.

(** ** Python primitives used by the driver *)

Module Py.

(** [a << n]: a negative shift count raises [ValueError]. *)
Definition lshift (a n : Z) : result Z :=
  if n <? 0 then Raise (ValueError "negative shift count")
  else Ok (Z.shiftl a n).

(** [b[i]] on a bytearray, for a non-negative constant index. *)
Definition getitem (b : list byte) (i : nat) : result Z :=
  match nth_error b i with
  | Some x => Ok (Z.of_N (Byte.to_N x))
  | None => Raise (IndexError "bytearray index out of range")
  end.

(** [l[i]] on a list, for a non-negative constant index. *)
Definition list_getitem {A} (l : list A) (i : nat) : result A :=
  match nth_error l i with
  | Some x => Ok x
  | None => Raise (IndexError "list index out of range")
  end.

(** [bytes(values)] accepts integers of 0..255 only and raises
    [ValueError] otherwise. *)
Definition bytes_error : string := "bytes must be in range(0, 256)".

Definition is_byte (v : Z) : bool := (0 <=? v) && (v <? 256).

Definition bytes_ok (values : list Z) : bool := forallb is_byte values.

(** A Python float is a binary64 number. *)
Definition prec : Z := 53.
Definition emax : Z := 1024.
Definition float : Type := spec_float.

(** Conversion of an int to a float (exact below 2^53, rounded to nearest
    even above). *)
Definition float_of_int (n : Z) : float :=
  binary_normalize prec emax n 0 false.

(** [n * x] with [n] an int and [x] a float: [n] is converted first. *)
Definition mul_int_float (n : Z) (x : float) : float :=
  SFmul prec emax (float_of_int n) x.

(** The literal [0.0625], that is 2^52 * 2^-56. *)
Definition lit_0_0625 : float := S754_finite false 4503599627370496 (-56).

(** The rational number a finite float stands for. *)
Definition to_Q (x : float) : option Q :=
  match x with
  | S754_zero _ => Some 0%Q
  | S754_finite s m e =>
      let v := (inject_Z (Z.pos m) * Qpower 2 e)%Q in
      Some (if s then Qopp v else v)
  | _ => None
  end.

End Py.

(** ** The I2C bus seen through quick2wire *)

Section Driver.

(** Messages built by [quick2wire.i2c]: [writing_bytes(addr, *bytes)] and
    [reading(addr, n_bytes)].  The driver always gives the register as the
    first byte written; [data] holds what follows it. *)
Inductive message : Type :=
| writing_bytes (addr : Z) (register : Z) (data : list Z)
| reading (addr : Z) (n_bytes : Z).

(** [quick2wire.i2c.writing_bytes(addr, register, *data)]: the values to
    write go through [bytes(...)], so building the message raises
    [ValueError] when one of them is not in 0..255. *)
Definition i2c_writing_bytes (addr register : Z) (data : list Z)
  : result message :=
  if Py.bytes_ok (register :: data)
  then Ok (writing_bytes addr register data)
  else Raise (ValueError Py.bytes_error).

(** The bus and the sensor behind it are outside the driver: a state and a
    function giving the outcome of one transaction, which is either an
    [IOError] with some text or the list of the byte strings read. *)
Variable Bus : Type.
Variable transport : message -> Bus -> (string + list (list byte)) * Bus.

(** The world the driver runs in: the bus, and the transactions issued so
    far, oldest first. *)
Record world : Type := mkWorld { bus : Bus; trace : list message }.

(** Computations: state passing with exceptions; the state survives a
    raise, as side effects on the bus do in Python. *)
Definition M (A : Type) : Type := world -> result A * world.

Definition ret {A} (a : A) : M A := fun w => (Ok a, w).

Definition raise {A} (e : exn) : M A := fun w => (Raise e, w).

Definition bind {A B} (c : M A) (k : A -> M B) : M B :=
  fun w => match c w with
           | (Ok a, w') => k a w'
           | (Raise e, w') => (Raise e, w')
           end.

Definition lift {A} (r : result A) : M A := fun w => (r, w).

(** [try: c except IOError: h] *)
Definition except_IOError {A} (c : M A) (h : M A) : M A :=
  fun w => match c w with
           | (Raise (IOError _), w') => h w'
           | rw => rw
           end.

Notation "x <- c ;; k" := (bind c (fun x => k))
  (at level 61, c at next level, right associativity).
Notation "c ;;; k" := (bind c (fun _ => k))
  (at level 61, right associativity).

(** [I2CMaster.transaction(msg)] *)
Definition transaction (msg : message) : M (list (list byte)) :=
  fun w =>
    let (r, b') := transport msg (bus w) in
    let w' := {| bus := b'; trace := trace w ++ [msg] |} in
    match r with
    | inl e => (Raise (IOError e), w')
    | inr d => (Ok d, w')
    end.

(** ** The class [mcp9808] *)

(** The fields set by [__init__] that the methods read. *)
Record mcp9808 : Type := { addr : Z }.

Definition default_addr : Z := 0x18.

Definition regConfig : Z := 0x01.
Definition regTUpper : Z := 0x02.
Definition regTLower : Z := 0x03.
Definition regTCrit : Z := 0x04.
Definition regTA : Z := 0x05.
Definition regMfgID : Z := 0x06.
Definition regDevID : Z := 0x07.
Definition regRes : Z := 0x08.

Definition tempAlertCrit : Z := 0x8000.
Definition tempAlertUpper : Z := 0x4000.
Definition tempAlertLower : Z := 0x2000.
Definition tempAlertMask : Z := 0x1fff.

Variable self : mcp9808.

Definition readReg_error : string :=
  "mcp9808 IO Error: Failed to read MCP9808 sensor on I2C bus.".
Definition writeReg_error : string :=
  "mcp9808 IO Error: Failed to write to MCP9808 sensor on I2C bus.".
Definition setReg_error : string :=
  "MCP9808 register must be writable to set it.".

(** [__readReg(register, byteCt)] *)
Definition readReg (register byteCt : Z) : M (list byte) :=
  except_IOError
    (sel <- lift (i2c_writing_bytes (addr self) register []) ;;
     transaction sel ;;;
     data <- transaction (reading (addr self) byteCt) ;;
     data0 <- lift (Py.list_getitem data 0) ;;
     ret data0)
    (raise (IOError readReg_error)).

(** [__writeReg(register, data)] *)
Definition writeReg (register : Z) (data : Z) : M unit :=
  except_IOError
    (msg <- lift (i2c_writing_bytes (addr self) register [data]) ;;
     transaction msg ;;;
     ret tt)
    (raise (IOError writeReg_error)).

(** [__getSigned(unsigned, bits)] *)
Definition getSigned (unsigned bits : Z) : result Z :=
  match Py.lshift 1 (bits - 1) with
  | Raise e => Raise e
  | Ok signbit =>
      if negb (Z.land unsigned signbit =? 0) then
        match Py.lshift 1 bits with
        | Raise e => Raise e
        | Ok modulus => Ok (unsigned - modulus)
        end
      else Ok unsigned
  end.

(** [getReg(register)] *)
Definition getReg (register : Z) : M (list byte) :=
  if register <? 8 then readReg register 2
  else readReg register 1.

(** [setReg(register, value)] *)
Definition setReg (register : Z) (value : Z) : M unit :=
  if (register >=? regConfig) && (register <=? regTCrit)
  then writeReg register value
  else raise (ValueError setReg_error).

(** [((i2cRaw[0] << 8) | i2cRaw[1])], the register word of two bytes. *)
Definition word_of (i2cRaw : list byte) : result Z :=
  match Py.getitem i2cRaw 0 with
  | Raise e => Raise e
  | Ok hi =>
      match Py.getitem i2cRaw 1 with
      | Raise e => Raise e
      | Ok lo => Ok (Z.lor (Z.shiftl hi 8) lo)
      end
  end.

(** [getAmbientTemp()] *)
Definition getAmbientTemp : M Py.float :=
  i2cRaw <- getReg regTA ;;
  w <- lift (word_of i2cRaw) ;;
  let tempBytes := Z.land w tempAlertMask in
  signedNum <- lift (getSigned tempBytes 13) ;;
  let signedNum := Py.mul_int_float signedNum Py.lit_0_0625 in
  ret signedNum.

(** [checkAlarmFlags(flags, strict)] *)
Definition checkAlarmFlags (flags : Z) (strict : bool) : M bool :=
  let retVal := false in
  i2cRaw <- getReg regTA ;;
  w <- lift (word_of i2cRaw) ;;
  let tempBytes := Z.land w (Z.lnot tempAlertMask) in
  if strict then
    if Z.land tempBytes flags =? flags then ret true
    else ret retVal
  else
    if Z.land tempBytes flags >? 0 then ret true
    else ret retVal.

(** [setConfig(config)] *)
Definition setConfig (config : Z) : M unit :=
  setReg regConfig config.

End Driver.

Arguments mkWorld {Bus} bus trace.
Arguments bus {Bus} w.
Arguments trace {Bus} w.
Arguments transaction {Bus} transport msg w.
Arguments readReg {Bus} transport self register byteCt w.
Arguments writeReg {Bus} transport self register data w.
Arguments getReg {Bus} transport self register w.
Arguments setReg {Bus} transport self register value w.
Arguments getAmbientTemp {Bus} transport self w.
Arguments checkAlarmFlags {Bus} transport self flags strict w.
Arguments setConfig {Bus} transport self config w.

(** ** The settings defined by [__init__] *)

(** Bits of the configuration register. *)
Definition regCfgHyst0 : Z := 0x0400.
Definition regCfgHyst1 : Z := 0x0200.
Definition regCfgShdn : Z := 0x0100.
Definition regCfgCrtLck : Z := 0x0080.
Definition regCfgWinLck : Z := 0x0040.
Definition regCfgIntClr : Z := 0x0020.
Definition regCfgAlrtSt : Z := 0x0010.
Definition regCfgAlrtCt : Z := 0x0008.
Definition regCfgAlrtSl : Z := 0x0004.
Definition regCfgAlrtPl : Z := 0x0002.
Definition regCfgAlrtMd : Z := 0x0001.

(** Bits of the resolution register. *)
Definition regResBit0 : Z := 0x0002.
Definition regResBit1 : Z := 0x0001.

Definition tempHyst0 : Z := 0x00.
Definition tempHyst1_5 : Z := regCfgHyst1.
Definition tempHyst3_0 : Z := regCfgHyst0.
Definition tempHyst6_0 : Z := Z.lor regCfgHyst0 regCfgHyst1.

Definition modeContinuous : Z := 0x00.
Definition modeShutdown : Z := regCfgShdn.

Definition lockCritTmp : Z := regCfgCrtLck.
Definition lockTempWindow : Z := regCfgWinLck.
Definition clearInterrupt : Z := regCfgIntClr.
Definition alertStatus : Z := regCfgAlrtSt.

Definition alertOutputOff : Z := 0x00.
Definition alertOutputOn : Z := regCfgAlrtCt.

Definition alertSelAll : Z := 0x00.
Definition alertSelCrit : Z := regCfgAlrtSl.

Definition alertPinLow : Z := 0x00.
Definition alertPinHigh : Z := regCfgAlrtPl.

Definition alertModeComp : Z := 0x00.
Definition alertModeIntrr : Z := regCfgAlrtMd.

Definition tempRes0_5 : Z := 0x00.
Definition tempRes0_25 : Z := regResBit1.
Definition tempRes0_125 : Z := regResBit0.
Definition tempRes0_0625 : Z := Z.lor regResBit0 regResBit1.

(** ** A scripted bus

    A bus whose state is the list of the outcomes still to come: each
    transaction consumes the next one, and an exhausted script answers with
    an [IOError].  It plays the part of a mock transport. *)

Module Scripted.

Definition bus : Type := list (string + list (list byte)).

Definition transport (msg : message) (b : bus)
  : (string + list (list byte)) * bus :=
  match b with
  | [] => (inl "no answer"%string, [])
  | r :: b' => (r, b')
  end.

Definition sensor : mcp9808 := {| addr := default_addr |}.

Definition start (script : bus) : world bus := mkWorld script [].

(** The select is acknowledged, then the read yields [bytes]. *)
Definition answers (bytes : list byte) : bus := [inr []; inr [bytes]].

(** A fresh world whose sensor holds [bytes] in the register read next. *)
Definition device (bytes : list byte) : world bus := start (answers bytes).

(** A fresh world whose sensor acknowledges the select and then fails. *)
Definition mute : world bus := start [inr []; inl "nack"%string].

(** A fresh world whose sensor holds [first] at the next read of a register
    and [second] at the one after. *)
Definition drifting (first second : list byte) : world bus :=
  start (answers first ++ answers second).

End Scripted.

(** ** Checking a predicate on a range of integers *)

Fixpoint all_from (f : Z -> bool) (start : Z) (n : nat) : bool :=
  match n with
  | O => true
  | S k => f start && all_from f (start + 1) k
  end.

(** A configuration word made of one choice per setting keeps every
    choice readable under the bits of its setting, and leaves the alert
    status bit clear. *)
Definition config_fields_ok (hyst mode crit win clr out sel pol md : Z)
  : bool :=
  let config :=
    Z.lor hyst (Z.lor mode (Z.lor crit (Z.lor win (Z.lor clr
      (Z.lor out (Z.lor sel (Z.lor pol md))))))) in
  (Z.land config (Z.lor regCfgHyst0 regCfgHyst1) =? hyst)
  && (Z.land config regCfgShdn =? mode)
  && (Z.land config regCfgCrtLck =? crit)
  && (Z.land config regCfgWinLck =? win)
  && (Z.land config regCfgIntClr =? clr)
  && (Z.land config regCfgAlrtCt =? out)
  && (Z.land config regCfgAlrtSl =? sel)
  && (Z.land config regCfgAlrtPl =? pol)
  && (Z.land config regCfgAlrtMd =? md)
  && (Z.land config regCfgAlrtSt =? 0)
  && (0 <=? config) && (config <? 2 ^ 11).

Definition hystChoices : list Z :=
  [tempHyst0; tempHyst1_5; tempHyst3_0; tempHyst6_0].

Definition config_table_ok : bool :=
  forallb (fun hyst =>
  forallb (fun mode =>
  forallb (fun crit =>
  forallb (fun win =>
  forallb (fun clr =>
  forallb (fun out =>
  forallb (fun sel =>
  forallb (fun pol =>
  forallb (fun md =>
    config_fields_ok hyst mode crit win clr out sel pol md)
  [alertModeComp; alertModeIntrr])
  [alertPinLow; alertPinHigh])
  [alertSelAll; alertSelCrit])
  [alertOutputOff; alertOutputOn])
  [0; clearInterrupt])
  [0; lockTempWindow])
  [0; lockCritTmp])
  [modeContinuous; modeShutdown])
  hystChoices.

(** The exact product expected of [getAmbientTemp] for a signed count [n]:
    a finite float standing for [n / 16]. *)
Definition sixteenth_ok (n : Z) : bool :=
  match Py.to_Q (Py.mul_int_float n Py.lit_0_0625) with
  | Some q => Qeq_bool q (n # 16)
  | None => false
  end.

(** * Properties *)

(** ** Integer and bit facts *)

Lemma all_from_spec (f : Z -> bool) (n : nat) :
  forall start, all_from f start n = true ->
  forall z, start <= z < start + Z.of_nat n -> f z = true.
Proof.
  induction n as [|k IH]; intros start Hall z Hz.
  - simpl in Hz. lia.
  - simpl in Hall. apply andb_prop in Hall as [Hhd Htl].
    destruct (Z.eq_dec z start) as [->|Hne]; [exact Hhd|].
    apply (IH (start + 1) Htl). lia.
Qed.

Lemma land_pow2 (a n : Z) :
  0 <= n -> Z.land a (2 ^ n) = if Z.testbit a n then 2 ^ n else 0.
Proof.
  intros Hn. apply Z.bits_inj'. intros i Hi.
  rewrite Z.land_spec, Z.pow2_bits_eqb by exact Hn.
  destruct (Z.eqb_spec n i) as [->|Hne].
  - destruct (Z.testbit a i); simpl.
    + rewrite Z.pow2_bits_eqb, Z.eqb_refl by exact Hi. reflexivity.
    + rewrite Z.bits_0. reflexivity.
  - rewrite andb_false_r. destruct (Z.testbit a n).
    + rewrite Z.pow2_bits_eqb by exact Hn.
      symmetry. apply Z.eqb_neq. exact Hne.
    + rewrite Z.bits_0. reflexivity.
Qed.

Lemma testbit_top (u n : Z) :
  0 <= n -> 0 <= u < 2 ^ (n + 1) -> Z.testbit u n = (2 ^ n <=? u).
Proof.
  intros Hn Hu.
  assert (Hpow : 2 ^ (n + 1) = 2 * 2 ^ n).
  { rewrite Z.pow_add_r by lia. change (2 ^ 1) with 2. lia. }
  assert (Hpos : 0 < 2 ^ n) by (apply Z.pow_pos_nonneg; lia).
  pose proof (Z.testbit_spec' u n Hn) as Hb.
  destruct (Z.leb_spec (2 ^ n) u) as [Hge|Hlt].
  - assert (Hq : u / 2 ^ n = 1).
    { symmetry. apply (Z.div_unique u (2 ^ n) 1 (u - 2 ^ n)); lia. }
    rewrite Hq in Hb. destruct (Z.testbit u n); [reflexivity|discriminate].
  - rewrite Z.div_small in Hb by lia.
    destruct (Z.testbit u n); [discriminate|reflexivity].
Qed.

Lemma byte_range (b : byte) : 0 <= Z.of_N (Byte.to_N b) < 256.
Proof.
  pose proof (Byte.to_N_bounded b) as H. lia.
Qed.

Lemma word_range (hi lo : Z) :
  0 <= hi < 256 -> 0 <= lo < 256 ->
  Z.lor (Z.shiftl hi 8) lo = 256 * hi + lo.
Proof.
  intros Hhi Hlo.
  rewrite Z.shiftl_mul_pow2 by lia.
  assert (Hdisj : Z.land (hi * 2 ^ 8) lo = 0).
  { apply Z.bits_inj'. intros i Hi. rewrite Z.land_spec, Z.bits_0.
    destruct (Z.ltb_spec i 8) as [Hlt|Hge].
    - rewrite Z.mul_pow2_bits_low by lia. reflexivity.
    - replace (Z.testbit lo i) with false; [apply andb_false_r|].
      symmetry. destruct (Z.eq_dec lo 0) as [->|Hnz]; [apply Z.bits_0|].
      apply Z.bits_above_log2; [lia|].
      apply Z.lt_le_trans with 8; [|exact Hge].
      apply Z.log2_lt_pow2; [lia|]. change (2 ^ 8) with 256. lia. }
  rewrite <- (Z.lxor_lor _ _ Hdisj), <- (Z.add_nocarry_lxor _ _ Hdisj).
  change (2 ^ 8) with 256. lia.
Qed.

Lemma temp_mask_mod (w : Z) : Z.land w tempAlertMask = w mod 8192.
Proof.
  change tempAlertMask with (Z.ones 13).
  rewrite Z.land_ones by lia. reflexivity.
Qed.

Lemma flag_mask_bits (w i : Z) :
  0 <= w < 65536 -> 0 <= i ->
  Z.testbit (Z.land w (Z.lnot tempAlertMask)) i
  = Z.testbit w i && (13 <=? i) && (i <=? 15).
Proof.
  intros Hw Hi.
  rewrite Z.land_spec, Z.lnot_spec by exact Hi.
  change tempAlertMask with (Z.ones 13).
  destruct (Z.leb_spec 13 i) as [Hhi|Hlo].
  - rewrite Z.ones_spec_high by lia. simpl.
    destruct (Z.leb_spec i 15) as [Hin|Hout].
    + rewrite !andb_true_r. reflexivity.
    + rewrite !andb_false_r, andb_true_r.
      destruct (Z.eq_dec w 0) as [->|Hnz]; [apply Z.bits_0|].
      apply Z.bits_above_log2; [lia|].
      apply Z.lt_le_trans with 16; [|lia].
      apply Z.log2_lt_pow2; [lia|]. change (2 ^ 16) with 65536. lia.
  - rewrite Z.ones_spec_low by lia. simpl.
    rewrite !andb_false_r. reflexivity.
Qed.

Lemma land_all_of (d f : Z) :
  (Z.land d f =? f) = true <->
  (forall i, 0 <= i -> Z.testbit f i = true -> Z.testbit d i = true).
Proof.
  rewrite Z.eqb_eq. split.
  - intros Heq i Hi Hf. rewrite <- Heq, Z.land_spec in Hf.
    apply andb_prop in Hf. tauto.
  - intros Hall. apply Z.bits_inj'. intros i Hi.
    rewrite Z.land_spec. specialize (Hall i Hi).
    destruct (Z.testbit f i); [rewrite Hall; reflexivity|apply andb_false_r].
Qed.

Lemma word_of_two (b0 b1 : byte) (rest : list byte) :
  word_of (b0 :: b1 :: rest)
  = Ok (256 * Z.of_N (Byte.to_N b0) + Z.of_N (Byte.to_N b1)).
Proof.
  unfold word_of, Py.getitem. cbn [nth_error].
  rewrite word_range by apply byte_range. reflexivity.
Qed.

Lemma word_of_ok (i2cRaw : list byte) :
  (2 <= List.length i2cRaw)%nat ->
  exists word, word_of i2cRaw = Ok word /\ 0 <= word < 65536.
Proof.
  destruct i2cRaw as [|b0 [|b1 rest]]; simpl; try lia. intros _.
  eexists. split; [apply word_of_two|].
  pose proof (byte_range b0). pose proof (byte_range b1). lia.
Qed.

Lemma word_of_bytes (i2cRaw : list byte) :
  (2 <= List.length i2cRaw)%nat ->
  exists b0 b1 rest word,
    i2cRaw = b0 :: b1 :: rest /\
    word = 256 * Z.of_N (Byte.to_N b0) + Z.of_N (Byte.to_N b1) /\
    word_of i2cRaw = Ok word /\ 0 <= word < 65536.
Proof.
  destruct i2cRaw as [|b0 [|b1 rest]]; cbn [List.length]; try lia. intros _.
  exists b0, b1, rest. eexists. split; [reflexivity|]. split; [reflexivity|].
  split; [apply word_of_two|].
  pose proof (byte_range b0). pose proof (byte_range b1). lia.
Qed.

Lemma flag_mask_nonneg (w f : Z) :
  0 <= w -> 0 <= Z.land (Z.land w (Z.lnot tempAlertMask)) f.
Proof.
  intros Hw. apply Z.land_nonneg. left. apply Z.land_nonneg. left. exact Hw.
Qed.

Lemma land_any_of (w f : Z) :
  0 <= w < 65536 ->
  negb (Z.land (Z.land w (Z.lnot tempAlertMask)) f =? 0)
  = (Z.testbit w 15 && Z.testbit f 15)
    || (Z.testbit w 14 && Z.testbit f 14)
    || (Z.testbit w 13 && Z.testbit f 13).
Proof.
  intros Hw.
  assert (Hbit : forall i, 0 <= i ->
            Z.testbit (Z.land (Z.land w (Z.lnot tempAlertMask)) f) i
            = Z.testbit w i && (13 <=? i) && (i <=? 15) && Z.testbit f i).
  { intros i Hi. rewrite Z.land_spec, flag_mask_bits by assumption.
    reflexivity. }
  destruct (Z.eqb_spec (Z.land (Z.land w (Z.lnot tempAlertMask)) f) 0)
    as [Hz|Hnz]; cbn [negb].
  - pose proof (Hbit 13 ltac:(lia)) as H13.
    pose proof (Hbit 14 ltac:(lia)) as H14.
    pose proof (Hbit 15 ltac:(lia)) as H15.
    rewrite Hz, Z.bits_0 in H13, H14, H15.
    cbn [Z.leb Z.compare Pos.compare Pos.compare_cont] in H13, H14, H15.
    rewrite !andb_true_r in H13, H14, H15.
    rewrite <- H13, <- H14, <- H15. reflexivity.
  - destruct ((Z.testbit w 15 && Z.testbit f 15)
              || (Z.testbit w 14 && Z.testbit f 14)
              || (Z.testbit w 13 && Z.testbit f 13)) eqn:Hany;
      [reflexivity|].
    exfalso. apply Hnz. apply Z.bits_inj'. intros i Hi.
    rewrite Hbit, Z.bits_0 by exact Hi.
    apply orb_false_elim in Hany as [Hany H13].
    apply orb_false_elim in Hany as [H15 H14].
    destruct (Z.leb_spec 13 i) as [Hlo|Hlo];
      [|rewrite andb_false_r; reflexivity].
    destruct (Z.leb_spec i 15) as [Hhi|Hhi];
      [|rewrite andb_false_r; reflexivity].
    rewrite !andb_true_r.
    assert (Hcase : i = 13 \/ i = 14 \/ i = 15) by lia.
    destruct Hcase as [Hi'|[Hi'|Hi']]; subst i; assumption.
Qed.

(** ** Sign decoding and scaling *)

Lemma getSigned_13_run (u : Z) :
  0 <= u < 8192 ->
  getSigned u 13 = Ok (if Z.testbit u 12 then u - 8192 else u).
Proof.
  intros Hu. unfold getSigned, Py.lshift.
  change (13 - 1 <? 0) with false. change (13 <? 0) with false. cbv iota.
  change (Z.shiftl 1 (13 - 1)) with (2 ^ 12).
  change (Z.shiftl 1 13) with 8192.
  rewrite land_pow2 by lia.
  destruct (Z.testbit u 12); reflexivity.
Qed.

Lemma sixteenth_exact (n : Z) : -4096 <= n <= 4095 -> sixteenth_ok n = true.
Proof.
  intros Hn.
  apply (all_from_spec sixteenth_ok (Z.to_nat 8192) (-4096)); [|lia].
  vm_compute. reflexivity.
Qed.

Lemma scaled_value (n : Z) :
  -4096 <= n <= 4095 ->
  exists q, Py.to_Q (Py.mul_int_float n Py.lit_0_0625) = Some q /\
            (q == inject_Z n * (1 # 16))%Q.
Proof.
  intros Hn. pose proof (sixteenth_exact n Hn) as Hok.
  unfold sixteenth_ok in Hok.
  destruct (Py.to_Q (Py.mul_int_float n Py.lit_0_0625)) as [q|];
    [|discriminate].
  exists q. split; [reflexivity|].
  apply Qeq_bool_iff in Hok. rewrite Hok.
  unfold Qeq, Qmult, inject_Z. simpl. lia.
Qed.

Lemma is_byte_spec (v : Z) : Py.is_byte v = true <-> 0 <= v <= 255.
Proof.
  unfold Py.is_byte. rewrite andb_true_iff, Z.leb_le, Z.ltb_lt. lia.
Qed.

Lemma is_byte_false (v : Z) : Py.is_byte v = false <-> v < 0 \/ 255 < v.
Proof.
  unfold Py.is_byte. rewrite andb_false_iff, Z.leb_gt, Z.ltb_ge. lia.
Qed.

(** ** Running the driver on an arbitrary bus *)

Section Properties.

Variable Bus : Type.
Variable transport :
  message -> Bus -> (string + list (list byte)) * Bus.
Variable self : mcp9808.

Lemma bind_ok {A B} (c : M Bus A) (k : A -> M Bus B) w a w' :
  c w = (Ok a, w') -> bind Bus c k w = k a w'.
Proof.
  intros Hc. unfold bind. rewrite Hc. reflexivity.
Qed.

(** The whole behaviour of [__readReg] for a register that fits a byte, by
    cases on what the bus answers. *)
Lemma readReg_run (register byteCt : Z) (w : world Bus) :
  Py.is_byte register = true ->
  readReg transport self register byteCt w =
  let sel := writing_bytes (addr self) register [] in
  let rd := reading (addr self) byteCt in
  let (r1, b1) := transport sel (bus w) in
  match r1 with
  | inl _ => (Raise (IOError readReg_error), mkWorld b1 (trace w ++ [sel]))
  | inr _ =>
      let (r2, b2) := transport rd b1 in
      match r2 with
      | inl _ =>
          (Raise (IOError readReg_error), mkWorld b2 (trace w ++ [sel; rd]))
      | inr d => (Py.list_getitem d 0, mkWorld b2 (trace w ++ [sel; rd]))
      end
  end.
Proof.
  intros Hbyte.
  unfold readReg, i2c_writing_bytes, Py.bytes_ok. cbn [forallb].
  rewrite Hbyte. cbn [andb].
  unfold except_IOError, bind, transaction, raise, lift, ret.
  cbn [bus trace].
  destruct (transport (writing_bytes (addr self) register []) (bus w))
    as [[e1|d1] b1]; cbn; [reflexivity|].
  destruct (transport (reading (addr self) byteCt) b1) as [[e2|d2] b2]; cbn;
    rewrite <- app_assoc; cbn; [reflexivity|].
  destruct d2 as [|x d2]; reflexivity.
Qed.

(** A register that does not fit a byte never reaches the bus. *)
Lemma readReg_unsendable (register byteCt : Z) (w : world Bus) :
  Py.is_byte register = false ->
  readReg transport self register byteCt w
  = (Raise (ValueError Py.bytes_error), w).
Proof.
  intros Hbyte.
  unfold readReg, i2c_writing_bytes, Py.bytes_ok. cbn [forallb].
  rewrite Hbyte. reflexivity.
Qed.

Lemma getReg_readReg (register : Z) (w : world Bus) :
  getReg transport self register w
  = readReg transport self register (if register <? 8 then 2 else 1) w.
Proof.
  unfold getReg. destruct (register <? 8); reflexivity.
Qed.

(** [checkAlarmFlags] once the register has been read. *)
Lemma checkAlarmFlags_run flags strict w i2cRaw w' word :
  getReg transport self regTA w = (Ok i2cRaw, w') ->
  word_of i2cRaw = Ok word ->
  checkAlarmFlags transport self flags strict w
  = (Ok (let tempBytes := Z.land word (Z.lnot tempAlertMask) in
         if strict then Z.land tempBytes flags =? flags
         else Z.land tempBytes flags >? 0), w').
Proof.
  intros Hget Hword. unfold checkAlarmFlags.
  rewrite (bind_ok _ _ _ _ _ Hget). unfold bind, lift at 1.
  rewrite Hword. cbv zeta. unfold ret.
  destruct strict.
  - destruct (Z.land (Z.land word (Z.lnot tempAlertMask)) flags =? flags);
      reflexivity.
  - destruct (Z.land (Z.land word (Z.lnot tempAlertMask)) flags >? 0);
      reflexivity.
Qed.

(** ** Register reads *)

(** C8: a successful [getReg] has performed exactly two transactions, one
    after the other on the bus: first a write carrying only the register
    byte, then a separate read of the width fixed by the register. *)
Theorem getReg_select_then_read register w i2cRaw w' :
  getReg transport self register w = (Ok i2cRaw, w') ->
  let sel := writing_bytes (addr self) register [] in
  let rd := reading (addr self) (if register <? 8 then 2 else 1) in
  trace w' = trace w ++ [sel; rd] /\
  exists d1 b1 d2,
    transport sel (bus w) = (inr d1, b1) /\
    transport rd b1 = (inr d2, bus w') /\
    Py.list_getitem d2 0 = Ok i2cRaw.
Proof.
  rewrite getReg_readReg.
  destruct (Py.is_byte register) eqn:Hbyte;
    [|rewrite readReg_unsendable by exact Hbyte; discriminate].
  rewrite readReg_run by exact Hbyte. cbv zeta.
  destruct (transport (writing_bytes (addr self) register []) (bus w))
    as [[e1|d1] b1] eqn:Hsel; [discriminate|].
  destruct (transport (reading (addr self) (if register <? 8 then 2 else 1)) b1)
    as [[e2|d2] b2] eqn:Hrd; [discriminate|].
  intros Hrun. injection Hrun as Hget Hw. subst w'. cbn [trace bus].
  split; [reflexivity|]. exists d1, b1, d2.
  split; [reflexivity|]. split; [exact Hrd|exact Hget].
Qed.

(** C7: for a register of the map, the read that [getReg] issues once the
    select is accepted asks for 2 bytes at addresses 0x01 to 0x07 and for
    1 byte at 0x08; nothing but the register decides the width. *)
Theorem getReg_read_width register w :
  let sel := writing_bytes (addr self) register [] in
  let issued n :=
    trace (snd (getReg transport self register w)) =
    trace w ++ sel :: match fst (transport sel (bus w)) with
                      | inl _ => []
                      | inr _ => [reading (addr self) n]
                      end in
  (regConfig <= register <= regDevID -> issued 2) /\
  (register = regRes -> issued 1).
Proof.
  cbv zeta. rewrite getReg_readReg.
  unfold regConfig, regDevID, regRes.
  split; intros Hreg;
    (rewrite readReg_run by (apply is_byte_spec; lia)); cbv zeta.
  - replace (register <? 8) with true by (symmetry; apply Z.ltb_lt; lia).
    destruct (transport (writing_bytes (addr self) register []) (bus w))
      as [[e1|d1] b1]; cbn; [reflexivity|].
    destruct (transport (reading (addr self) 2) b1) as [[e2|d2] b2];
      reflexivity.
  - subst register. cbn [Z.ltb Z.compare Pos.compare Pos.compare_cont].
    destruct (transport (writing_bytes (addr self) 8 []) (bus w))
      as [[e1|d1] b1]; cbn; [reflexivity|].
    destruct (transport (reading (addr self) 1) b1) as [[e2|d2] b2];
      reflexivity.
Qed.

(** C9: [getReg] raises [IOError] exactly when the bus refuses the select
    write or, the select accepted, refuses the read; each transaction has
    then been tried once and the error reaches the caller.  A transaction
    takes place only for a register that fits the byte of the select
    message. *)
Theorem getReg_IOError_iff register w :
  let sel := writing_bytes (addr self) register [] in
  let rd := reading (addr self) (if register <? 8 then 2 else 1) in
  let o1 := transport sel (bus w) in
  let o2 := transport rd (snd o1) in
  let selected := Py.is_byte register = true in
  let select_fails := selected /\ exists e, fst o1 = inl e in
  let read_fails :=
    selected /\ (exists d, fst o1 = inr d) /\ exists e, fst o2 = inl e in
  (is_IOError (fst (getReg transport self register w)) = true
   <-> select_fails \/ read_fails) /\
  (select_fails ->
   getReg transport self register w
   = (Raise (IOError readReg_error), mkWorld (snd o1) (trace w ++ [sel]))) /\
  (read_fails ->
   getReg transport self register w
   = (Raise (IOError readReg_error),
      mkWorld (snd o2) (trace w ++ [sel; rd]))).
Proof.
  cbv zeta. rewrite getReg_readReg.
  destruct (Py.is_byte register) eqn:Hbyte.
  - rewrite readReg_run by exact Hbyte. cbv zeta.
    destruct (transport (writing_bytes (addr self) register []) (bus w))
      as [[e1|d1] b1]; cbn [fst snd].
    + split; [|split].
      * split; [|reflexivity].
        intros _. left. split; [reflexivity|exists e1; reflexivity].
      * reflexivity.
      * intros [_ [[d Hd] _]]. discriminate.
    + destruct (transport
                  (reading (addr self) (if register <? 8 then 2 else 1)) b1)
        as [[e2|d2] b2]; cbn [fst snd].
      * split; [|split].
        -- split; [|reflexivity].
           intros _. right. split; [reflexivity|].
           split; [exists d1|exists e2]; reflexivity.
        -- intros [_ [e He]]. discriminate.
        -- reflexivity.
      * split; [|split].
        -- split.
           ++ destruct d2; discriminate.
           ++ intros [[_ [e He]]|[_ [_ [e He]]]]; discriminate.
        -- intros [_ [e He]]. discriminate.
        -- intros [_ [_ [e He]]]. discriminate.
  - rewrite readReg_unsendable by exact Hbyte. cbn [fst is_IOError].
    split; [|split].
    + split; [discriminate|].
      intros [[Hsel _]|[Hsel _]]; discriminate.
    + intros [Hsel _]. discriminate.
    + intros [Hsel _]. discriminate.
Qed.

(** ** Register writes *)

(** What [__writeReg] does, by cases on the byte check of the message and
    on what the bus answers. *)
Lemma writeReg_cases (register data : Z) (w : world Bus) :
  writeReg transport self register data w =
  let msg := writing_bytes (addr self) register [data] in
  if Py.is_byte register && Py.is_byte data then
    let o := transport msg (bus w) in
    (match fst o with
     | inl _ => Raise (IOError writeReg_error)
     | inr _ => Ok tt
     end,
     mkWorld (snd o) (trace w ++ [msg]))
  else (Raise (ValueError Py.bytes_error), w).
Proof.
  unfold writeReg, i2c_writing_bytes, Py.bytes_ok. cbn [forallb].
  rewrite andb_true_r.
  destruct (Py.is_byte register && Py.is_byte data); [|reflexivity].
  unfold except_IOError, bind, transaction, raise, lift, ret. cbv zeta.
  destruct (transport (writing_bytes (addr self) register [data]) (bus w))
    as [[e|d] b]; reflexivity.
Qed.

Lemma setReg_guard_passes (register value : Z) (w : world Bus) :
  regConfig <= register <= regTCrit ->
  setReg transport self register value w
  = writeReg transport self register value w.
Proof.
  unfold setReg, regConfig, regTCrit. intros Hreg.
  replace ((register >=? 1) && (register <=? 4)) with true; [reflexivity|].
  symmetry. apply andb_true_iff. rewrite Z.geb_leb, !Z.leb_le. lia.
Qed.

(** C6: outside 0x01..0x04 [setReg] raises its [ValueError] and leaves the
    world as it was, so no transaction has been issued; inside that range
    this rejection does not occur: the call goes on to [__writeReg], which
    issues the single write when the value fits a byte and otherwise stops
    at the byte check of the message, before the bus. *)
Theorem setReg_writable_only register value w :
  (~ regConfig <= register <= regTCrit ->
   setReg transport self register value w
   = (Raise (ValueError setReg_error), w)) /\
  (regConfig <= register <= regTCrit ->
   fst (setReg transport self register value w)
   <> Raise (ValueError setReg_error) /\
   setReg transport self register value w
   = writeReg transport self register value w /\
   (0 <= value <= 255 ->
    is_ValueError (fst (setReg transport self register value w)) = false /\
    trace (snd (setReg transport self register value w))
    = trace w ++ [writing_bytes (addr self) register [value]]) /\
   (value < 0 \/ 255 < value ->
    setReg transport self register value w
    = (Raise (ValueError Py.bytes_error), w))).
Proof.
  split; intros Hreg.
  - unfold setReg, regConfig, regTCrit in *.
    replace ((register >=? 1) && (register <=? 4)) with false; [reflexivity|].
    symmetry. apply andb_false_iff.
    rewrite Z.geb_leb, !Z.leb_gt. lia.
  - rewrite (setReg_guard_passes _ _ _ Hreg), writeReg_cases. cbv zeta.
    assert (Hbyte : Py.is_byte register = true).
    { apply is_byte_spec. unfold regConfig, regTCrit in Hreg. lia. }
    rewrite Hbyte. cbn [andb].
    split; [|split; [reflexivity|split]].
    + destruct (Py.is_byte value); cbn [fst].
      * destruct (fst (transport
                         (writing_bytes (addr self) register [value])
                         (bus w))); discriminate.
      * unfold Py.bytes_error, setReg_error. discriminate.
    + intros Hvalue. apply is_byte_spec in Hvalue. rewrite Hvalue.
      cbn [fst snd trace].
      destruct (fst (transport
                       (writing_bytes (addr self) register [value])
                       (bus w))); split; reflexivity.
    + intros Hvalue. apply is_byte_false in Hvalue. rewrite Hvalue.
      reflexivity.
Qed.

(** ** Temperature *)

(** C1: [getAmbientTemp] keeps the low 13 bits of the register word,
    reads them as a two's-complement number (minus 2^13 when bit 12 is
    set) and returns the float standing for that number times 0.0625;
    bytes 0x01 0x94 give 25.25 and the word 0x1FF0 gives -1.0. *)
Theorem getAmbientTemp_decodes w i2cRaw w' :
  getReg transport self regTA w = (Ok i2cRaw, w') ->
  (2 <= List.length i2cRaw)%nat ->
  exists b0 b1 rest word t q,
    i2cRaw = b0 :: b1 :: rest /\
    word = 256 * Z.of_N (Byte.to_N b0) + Z.of_N (Byte.to_N b1) /\
    word_of i2cRaw = Ok word /\ 0 <= word < 65536 /\
    let magnitude := Z.land word 0x1FFF in
    let signed :=
      if Z.testbit magnitude 12 then magnitude - 2 ^ 13 else magnitude in
    magnitude = word mod 2 ^ 13 /\
    getAmbientTemp transport self w = (Ok t, w') /\
    Py.to_Q t = Some q /\
    (q == inject_Z signed * (1 # 16))%Q /\
    (word = 0x0194 -> t = S754_finite false 7107243161944064 (-48) /\
                      (q == 101 # 4)%Q) /\
    (word = 0x1FF0 -> t = S754_finite true 4503599627370496 (-52) /\
                      (q == -1 # 1)%Q).
Proof.
  intros Hget Hlen.
  destruct (word_of_bytes i2cRaw Hlen)
    as [b0 [b1 [rest [word [Hraw [Hbytes [Hword Hrange]]]]]]].
  pose proof (temp_mask_mod word) as Hmask.
  assert (Hmag : 0 <= Z.land word tempAlertMask < 8192).
  { rewrite Hmask. apply Z.mod_pos_bound. lia. }
  pose proof (getSigned_13_run _ Hmag) as Hsigned.
  set (signed := if Z.testbit (Z.land word tempAlertMask) 12
                 then Z.land word tempAlertMask - 8192
                 else Z.land word tempAlertMask) in *.
  assert (Hsr : -4096 <= signed <= 4095).
  { subst signed. rewrite testbit_top with (n := 12) by (simpl; lia).
    change (2 ^ 12) with 4096.
    destruct (Z.leb_spec 4096 (Z.land word tempAlertMask)); lia. }
  destruct (scaled_value signed Hsr) as [q [Hq Hval]].
  assert (Hrun : getAmbientTemp transport self w
                 = (Ok (Py.mul_int_float signed Py.lit_0_0625), w')).
  { unfold getAmbientTemp. rewrite (bind_ok _ _ _ _ _ Hget).
    unfold bind, lift, ret. rewrite Hword, Hsigned. reflexivity. }
  exists b0, b1, rest, word, (Py.mul_int_float signed Py.lit_0_0625), q.
  split; [exact Hraw|]. split; [exact Hbytes|].
  split; [exact Hword|]. split; [exact Hrange|]. cbv zeta.
  change 0x1FFF with tempAlertMask. change (2 ^ 13) with 8192.
  fold signed.
  split; [exact Hmask|]. split; [exact Hrun|]. split; [exact Hq|].
  split; [exact Hval|].
  split; intros ->; vm_compute in Hq; injection Hq as <-;
    split; reflexivity.
Qed.

(** C2: on 13-bit inputs [__getSigned(u, 13)] is [u] below 4096 and
    [u - 8192] from 4096 on; 4095 stays, 4096 becomes -4096 and 8191
    becomes -1. *)
Theorem getSigned_13_bits :
  (forall u, 0 <= u <= 8191 ->
             getSigned u 13 = Ok (if u <? 4096 then u else u - 8192)) /\
  getSigned 4095 13 = Ok 4095 /\
  getSigned 4096 13 = Ok (-4096) /\
  getSigned 8191 13 = Ok (-1).
Proof.
  split; [|repeat split; reflexivity].
  intros u Hu. rewrite getSigned_13_run by lia.
  rewrite testbit_top with (n := 12) by (simpl; lia).
  change (2 ^ 12) with 4096.
  destruct (Z.leb_spec 4096 u), (Z.ltb_spec u 4096); try lia; reflexivity.
Qed.

(** ** Alarm flags *)

(** C3: in strict mode [checkAlarmFlags] answers whether the flag bits of
    the device (bits 13 to 15 of the word), ANDed with the requested
    flags, give the requested flags back: every requested bit must be
    set on the device, and bits set on the device but not requested do
    not matter. *)
Theorem checkAlarmFlags_strict_all_of flags w i2cRaw w' :
  getReg transport self regTA w = (Ok i2cRaw, w') ->
  (2 <= List.length i2cRaw)%nat ->
  exists b0 b1 rest word,
    i2cRaw = b0 :: b1 :: rest /\
    word = 256 * Z.of_N (Byte.to_N b0) + Z.of_N (Byte.to_N b1) /\
    word_of i2cRaw = Ok word /\ 0 <= word < 65536 /\
    let devFlags := Z.land word (Z.lnot tempAlertMask) in
    (forall i, 0 <= i ->
       Z.testbit devFlags i = Z.testbit word i && (13 <=? i) && (i <=? 15)) /\
    checkAlarmFlags transport self flags true w
    = (Ok (Z.land devFlags flags =? flags), w') /\
    ((Z.land devFlags flags =? flags) = true <->
     forall i, 0 <= i -> Z.testbit flags i = true ->
               Z.testbit devFlags i = true) /\
    (devFlags = tempAlertCrit ->
     checkAlarmFlags transport self (Z.lor tempAlertCrit tempAlertUpper)
       true w = (Ok false, w')) /\
    (devFlags = Z.lor tempAlertCrit tempAlertLower ->
     checkAlarmFlags transport self tempAlertCrit true w = (Ok true, w')).
Proof.
  intros Hget Hlen.
  destruct (word_of_bytes i2cRaw Hlen)
    as [b0 [b1 [rest [word [Hraw [Hbytes [Hword Hrange]]]]]]].
  exists b0, b1, rest, word. split; [exact Hraw|]. split; [exact Hbytes|].
  split; [exact Hword|]. split; [exact Hrange|]. cbv zeta.
  split; [intros i Hi; apply flag_mask_bits; assumption|].
  split; [rewrite (checkAlarmFlags_run _ _ _ _ _ _ Hget Hword); reflexivity|].
  split; [apply land_all_of|].
  split; intros Hdev;
    rewrite (checkAlarmFlags_run _ _ _ _ _ _ Hget Hword); cbv zeta;
    rewrite Hdev; reflexivity.
Qed.

(** C4: in non-strict mode [checkAlarmFlags] answers whether the flag
    bits of the device ANDed with the requested flags are non-zero, that
    is whether some requested flag is set on the device; asking for
    AboveUpper when only CriticalExceeded is set answers false. *)
Theorem checkAlarmFlags_any_of flags w i2cRaw w' :
  getReg transport self regTA w = (Ok i2cRaw, w') ->
  (2 <= List.length i2cRaw)%nat ->
  exists b0 b1 rest word,
    i2cRaw = b0 :: b1 :: rest /\
    word = 256 * Z.of_N (Byte.to_N b0) + Z.of_N (Byte.to_N b1) /\
    word_of i2cRaw = Ok word /\ 0 <= word < 65536 /\
    let devFlags := Z.land word (Z.lnot tempAlertMask) in
    checkAlarmFlags transport self flags false w
    = (Ok (negb (Z.land devFlags flags =? 0)), w') /\
    negb (Z.land devFlags flags =? 0)
    = (Z.testbit word 15 && Z.testbit flags 15)
      || (Z.testbit word 14 && Z.testbit flags 14)
      || (Z.testbit word 13 && Z.testbit flags 13) /\
    (devFlags = tempAlertCrit ->
     checkAlarmFlags transport self tempAlertUpper false w
     = (Ok false, w')).
Proof.
  intros Hget Hlen.
  destruct (word_of_bytes i2cRaw Hlen)
    as [b0 [b1 [rest [word [Hraw [Hbytes [Hword Hrange]]]]]]].
  exists b0, b1, rest, word. split; [exact Hraw|]. split; [exact Hbytes|].
  split; [exact Hword|]. split; [exact Hrange|]. cbv zeta.
  split; [|split].
  - rewrite (checkAlarmFlags_run _ _ _ _ _ _ Hget Hword). cbv zeta.
    pose proof (flag_mask_nonneg word flags ltac:(lia)) as Hnn.
    f_equal. f_equal.
    destruct (Z.gtb_spec (Z.land (Z.land word (Z.lnot tempAlertMask)) flags) 0),
      (Z.eqb_spec (Z.land (Z.land word (Z.lnot tempAlertMask)) flags) 0);
      try lia; reflexivity.
  - apply land_any_of. exact Hrange.
  - intros Hdev.
    rewrite (checkAlarmFlags_run _ _ _ _ _ _ Hget Hword). cbv zeta.
    rewrite Hdev. reflexivity.
Qed.

(** C10: with no flag requested, strict mode answers true and non-strict
    mode answers false, whatever the device reports. *)
Theorem checkAlarmFlags_empty_mask w i2cRaw w' :
  getReg transport self regTA w = (Ok i2cRaw, w') ->
  (2 <= List.length i2cRaw)%nat ->
  checkAlarmFlags transport self 0 true w = (Ok true, w') /\
  checkAlarmFlags transport self 0 false w = (Ok false, w').
Proof.
  intros Hget Hlen.
  destruct (word_of_ok i2cRaw Hlen) as [word [Hword _]].
  rewrite !(checkAlarmFlags_run _ _ _ _ _ _ Hget Hword). cbv zeta.
  rewrite Z.land_0_r. split; reflexivity.
Qed.

End Properties.

(** ** The driver on the scripted bus *)

(** C5, amended: the word 0xA194 ANDed with the complement of the
    temperature mask is 0xA000: CriticalExceeded and BelowLower are set,
    AboveUpper is clear, and [checkAlarmFlags] answers accordingly. *)
Theorem flags_of_0xA194 :
  word_of [xa1; x94] = Ok 0xA194 /\
  Z.land 0xA194 (Z.lnot tempAlertMask) = 0xA000 /\
  Z.land 0xA000 tempAlertCrit = tempAlertCrit /\
  Z.land 0xA000 tempAlertUpper = 0 /\
  Z.land 0xA000 tempAlertLower = tempAlertLower /\
  let check flags :=
    fst (checkAlarmFlags Scripted.transport Scripted.sensor flags false
           (Scripted.device [xa1; x94])) in
  check tempAlertCrit = Ok true /\
  check tempAlertUpper = Ok false /\
  check tempAlertLower = Ok true.
Proof.
  cbv zeta. repeat apply conj; reflexivity.
Qed.

(** C5 as first stated does not hold: the flag bits of 0xA194 are not
    0x8000, and BelowLower is not clear. *)
Lemma flags_of_0xA194_not_0x8000 :
  Z.land 0xA194 (Z.lnot tempAlertMask) <> 0x8000 /\
  Z.land (Z.land 0xA194 (Z.lnot tempAlertMask)) tempAlertLower <> 0 /\
  fst (checkAlarmFlags Scripted.transport Scripted.sensor tempAlertLower
         false (Scripted.device [xa1; x94])) = Ok true.
Proof.
  repeat apply conj; [discriminate|discriminate|reflexivity].
Qed.

Lemma getAmbientTemp_decodes_witness :
  exists t q,
    fst (getAmbientTemp Scripted.transport Scripted.sensor
           (Scripted.device [x01; x94])) = Ok t /\
    Py.to_Q t = Some q /\ (q == 101 # 4)%Q.
Proof.
  pose proof (getAmbientTemp_decodes Scripted.bus Scripted.transport
                Scripted.sensor (Scripted.device [x01; x94]) [x01; x94] _
                eq_refl (le_n 2)) as H.
  cbv zeta in H.
  destruct H as [b0 [b1 [rest [word [t [q H]]]]]].
  destruct H as [_ [_ [Hword [_ [_ [Hrun [Hq [_ [H25 _]]]]]]]]].
  exists t, q. split; [rewrite Hrun; reflexivity|]. split; [exact Hq|].
  apply H25. vm_compute in Hword. injection Hword as <-. reflexivity.
Defined.

Lemma getSigned_13_bits_witness : getSigned 4100 13 = Ok (-4092).
Proof.
  apply (proj1 getSigned_13_bits 4100). lia.
Defined.

Lemma checkAlarmFlags_strict_all_of_witness :
  fst (checkAlarmFlags Scripted.transport Scripted.sensor tempAlertCrit true
         (Scripted.device [xa1; x94])) = Ok true.
Proof.
  pose proof (checkAlarmFlags_strict_all_of Scripted.bus Scripted.transport
                Scripted.sensor tempAlertCrit (Scripted.device [xa1; x94])
                [xa1; x94] _ eq_refl (le_n 2)) as H.
  cbv zeta in H.
  destruct H as [b0 [b1 [rest [word [_ [_ [Hword [_ [_ [Hrun _]]]]]]]]]].
  rewrite Hrun. vm_compute in Hword. injection Hword as <-. reflexivity.
Defined.

Lemma checkAlarmFlags_any_of_witness :
  fst (checkAlarmFlags Scripted.transport Scripted.sensor
         (Z.lor tempAlertUpper tempAlertLower) false
         (Scripted.device [xa1; x94])) = Ok true.
Proof.
  pose proof (checkAlarmFlags_any_of Scripted.bus Scripted.transport
                Scripted.sensor (Z.lor tempAlertUpper tempAlertLower)
                (Scripted.device [xa1; x94]) [xa1; x94] _ eq_refl (le_n 2))
    as H.
  cbv zeta in H.
  destruct H as [b0 [b1 [rest [word [_ [_ [Hword [_ [Hrun _]]]]]]]]].
  rewrite Hrun. vm_compute in Hword. injection Hword as <-. reflexivity.
Defined.

Lemma setReg_writable_only_witness :
  setReg Scripted.transport Scripted.sensor regTA 0 (Scripted.device [])
  = (Raise (ValueError setReg_error), Scripted.device []) /\
  trace (snd (setReg Scripted.transport Scripted.sensor regTUpper 0
                (Scripted.device [])))
  = [writing_bytes default_addr regTUpper [0]] /\
  setReg Scripted.transport Scripted.sensor regTUpper 256
    (Scripted.device [])
  = (Raise (ValueError Py.bytes_error), Scripted.device []).
Proof.
  split; [|split].
  - apply (proj1 (setReg_writable_only Scripted.bus Scripted.transport
                    Scripted.sensor regTA 0 (Scripted.device []))).
    unfold regConfig, regTA, regTCrit. lia.
  - pose proof (proj2 (setReg_writable_only Scripted.bus Scripted.transport
                         Scripted.sensor regTUpper 0 (Scripted.device [])))
      as H.
    destruct H as [_ [_ [Hbyte _]]];
      [unfold regConfig, regTUpper, regTCrit; lia|].
    apply Hbyte. lia.
  - pose proof (proj2 (setReg_writable_only Scripted.bus Scripted.transport
                         Scripted.sensor regTUpper 256 (Scripted.device [])))
      as H.
    destruct H as [_ [_ [_ Hwide]]];
      [unfold regConfig, regTUpper, regTCrit; lia|].
    apply Hwide. lia.
Defined.

Lemma getReg_read_width_witness :
  trace (snd (getReg Scripted.transport Scripted.sensor regTA
                (Scripted.device [x01; x94])))
  = [writing_bytes default_addr regTA []; reading default_addr 2] /\
  trace (snd (getReg Scripted.transport Scripted.sensor regRes
                (Scripted.device [x03])))
  = [writing_bytes default_addr regRes []; reading default_addr 1].
Proof.
  split.
  - apply (proj1 (getReg_read_width Scripted.bus Scripted.transport
                    Scripted.sensor regTA (Scripted.device [x01; x94]))).
    unfold regConfig, regTA, regDevID. lia.
  - apply (proj2 (getReg_read_width Scripted.bus Scripted.transport
                    Scripted.sensor regRes (Scripted.device [x03]))).
    reflexivity.
Defined.

Lemma getReg_select_then_read_witness :
  trace (snd (getReg Scripted.transport Scripted.sensor regTA
                (Scripted.device [x01; x94])))
  = [writing_bytes default_addr regTA []; reading default_addr 2].
Proof.
  exact (proj1 (getReg_select_then_read Scripted.bus Scripted.transport
                  Scripted.sensor regTA (Scripted.device [x01; x94])
                  [x01; x94] _ eq_refl)).
Defined.

Lemma getReg_IOError_iff_witness :
  getReg Scripted.transport Scripted.sensor regTA Scripted.mute
  = (Raise (IOError readReg_error),
     mkWorld [] [writing_bytes default_addr regTA [];
                 reading default_addr 2]).
Proof.
  apply (proj2 (proj2 (getReg_IOError_iff Scripted.bus Scripted.transport
                         Scripted.sensor regTA Scripted.mute))).
  split; [reflexivity|].
  split; [exists []|exists "nack"%string]; reflexivity.
Defined.

Lemma checkAlarmFlags_empty_mask_witness :
  checkAlarmFlags Scripted.transport Scripted.sensor 0 true
    (Scripted.device [xe0; x00])
  = (Ok true, mkWorld [] [writing_bytes default_addr regTA [];
                          reading default_addr 2]) /\
  checkAlarmFlags Scripted.transport Scripted.sensor 0 false
    (Scripted.device [xe0; x00])
  = (Ok false, mkWorld [] [writing_bytes default_addr regTA [];
                           reading default_addr 2]).
Proof.
  exact (checkAlarmFlags_empty_mask Scripted.bus Scripted.transport
           Scripted.sensor (Scripted.device [xe0; x00]) [xe0; x00] _
           eq_refl (le_n 2)).
Defined.

(** * Further properties of the driver *)

(** ** Two's complement at any width *)

Lemma getSigned_run (u bits : Z) :
  1 <= bits ->
  getSigned u bits
  = Ok (if Z.testbit u (bits - 1) then u - 2 ^ bits else u).
Proof.
  intros Hbits. unfold getSigned, Py.lshift.
  replace (bits - 1 <? 0) with false by (symmetry; apply Z.ltb_ge; lia).
  replace (bits <? 0) with false by (symmetry; apply Z.ltb_ge; lia).
  rewrite !Z.shiftl_1_l, land_pow2 by lia.
  assert (Hpos : 0 < 2 ^ (bits - 1)) by (apply Z.pow_pos_nonneg; lia).
  destruct (Z.testbit u (bits - 1)).
  - replace (2 ^ (bits - 1) =? 0) with false
      by (symmetry; apply Z.eqb_neq; lia).
    reflexivity.
  - reflexivity.
Qed.

Lemma pow2_halves (bits : Z) :
  1 <= bits -> 2 ^ bits = 2 * 2 ^ (bits - 1) /\ 0 < 2 ^ (bits - 1).
Proof.
  intros Hbits. split; [|apply Z.pow_pos_nonneg; lia].
  replace bits with (bits - 1 + 1) at 1 by lia.
  rewrite Z.pow_add_r by lia. change (2 ^ 1) with 2. lia.
Qed.

(** X1: at any width of at least one bit, [__getSigned] maps a [bits]-bit
    pattern to the number of the signed range that is congruent to it
    modulo 2^bits, negative exactly when the top bit is set. *)
Theorem getSigned_twos_complement (u bits : Z) :
  1 <= bits -> 0 <= u < 2 ^ bits ->
  exists s,
    getSigned u bits = Ok s /\
    - 2 ^ (bits - 1) <= s < 2 ^ (bits - 1) /\
    s mod 2 ^ bits = u /\
    (s < 0 <-> 2 ^ (bits - 1) <= u).
Proof.
  intros Hbits Hu. destruct (pow2_halves bits Hbits) as [Hpow Hpos].
  rewrite getSigned_run by exact Hbits.
  rewrite testbit_top by (replace (bits - 1 + 1) with bits by lia; lia).
  destruct (Z.leb_spec (2 ^ (bits - 1)) u) as [Hhi|Hlo].
  - exists (u - 2 ^ bits). split; [reflexivity|]. split; [lia|].
    split; [|lia].
    replace (u - 2 ^ bits) with (u + (-1) * 2 ^ bits) by lia.
    rewrite Z.mod_add by lia. apply Z.mod_small. lia.
  - exists u. split; [reflexivity|]. split; [lia|].
    split; [apply Z.mod_small; lia|lia].
Qed.

(** X2: every number of the signed range of a width is the decoding of its
    residue modulo 2^bits, so reducing modulo 2^bits is the encoding that
    [__getSigned] inverts. *)
Theorem getSigned_inverts_residue (s bits : Z) :
  1 <= bits -> - 2 ^ (bits - 1) <= s < 2 ^ (bits - 1) ->
  getSigned (s mod 2 ^ bits) bits = Ok s.
Proof.
  intros Hbits Hs. destruct (pow2_halves bits Hbits) as [Hpow Hpos].
  rewrite getSigned_run by exact Hbits.
  assert (Hu : 0 <= s mod 2 ^ bits < 2 ^ bits)
    by (apply Z.mod_pos_bound; lia).
  rewrite testbit_top by (replace (bits - 1 + 1) with bits by lia; lia).
  destruct (Z.neg_nonneg_cases s) as [Hneg|Hnn].
  - assert (Hres : s mod 2 ^ bits = s + 2 ^ bits).
    { replace s with (s + 2 ^ bits + (-1) * 2 ^ bits) at 1 by lia.
      rewrite Z.mod_add by lia. apply Z.mod_small. lia. }
    rewrite Hres.
    replace (2 ^ (bits - 1) <=? s + 2 ^ bits) with true
      by (symmetry; apply Z.leb_le; lia).
    f_equal. lia.
  - rewrite Z.mod_small by lia.
    replace (2 ^ (bits - 1) <=? s) with false
      by (symmetry; apply Z.leb_gt; lia).
    reflexivity.
Qed.

(** X3: [__getSigned] returns a number exactly when the width is at least
    one; a width of zero or less makes the shift count negative and raises
    [ValueError], whatever the input. *)
Theorem getSigned_width_guard (u bits : Z) :
  ((exists s, getSigned u bits = Ok s) <-> 1 <= bits) /\
  (bits < 1 -> is_ValueError (getSigned u bits) = true).
Proof.
  assert (Hbad : bits < 1 -> getSigned u bits
                             = Raise (ValueError "negative shift count")).
  { intros Hb. unfold getSigned, Py.lshift.
    replace (bits - 1 <? 0) with true by (symmetry; apply Z.ltb_lt; lia).
    reflexivity. }
  split; [split|].
  - intros [s Hs]. destruct (Z.le_gt_cases 1 bits) as [Hok|Hb]; [exact Hok|].
    rewrite Hbad in Hs by lia. discriminate.
  - intros Hbits. rewrite getSigned_run by exact Hbits. eexists. reflexivity.
  - intros Hb. rewrite Hbad by exact Hb. reflexivity.
Qed.

Lemma getSigned_twos_complement_witness :
  exists s, getSigned 0x7FF 11 = Ok s /\ s mod 2 ^ 11 = 0x7FF /\ s < 0.
Proof.
  destruct (getSigned_twos_complement 0x7FF 11) as [s [Hs [_ [Hmod Hneg]]]];
    [lia|simpl; lia|].
  exists s. split; [exact Hs|]. split; [exact Hmod|].
  apply Hneg. simpl. lia.
Defined.

Lemma getSigned_inverts_residue_witness :
  getSigned (-40 mod 2 ^ 13) 13 = Ok (-40).
Proof.
  apply getSigned_inverts_residue; simpl; lia.
Defined.

Lemma getSigned_width_guard_witness :
  is_ValueError (getSigned 5 0) = true.
Proof.
  apply (proj2 (getSigned_width_guard 5 0)). lia.
Defined.

(** ** Register words *)

Lemma word_of_inv (i2cRaw : list byte) (word : Z) :
  word_of i2cRaw = Ok word ->
  (2 <= List.length i2cRaw)%nat /\ 0 <= word < 65536.
Proof.
  destruct i2cRaw as [|b0 [|b1 rest]]; try discriminate.
  rewrite word_of_two. intros Hw.
  assert (Hword : word = 256 * Z.of_N (Byte.to_N b0) + Z.of_N (Byte.to_N b1))
    by congruence.
  pose proof (byte_range b0). pose proof (byte_range b1).
  cbn [List.length]. split; lia.
Qed.

Lemma word_of_short (i2cRaw : list byte) :
  (List.length i2cRaw < 2)%nat ->
  word_of i2cRaw = Raise (IndexError "bytearray index out of range").
Proof.
  destruct i2cRaw as [|b0 [|b1 rest]]; simpl; intros Hlen;
    try reflexivity; lia.
Qed.

Lemma signed13_range (m : Z) :
  0 <= m < 8192 ->
  -4096 <= (if Z.testbit m 12 then m - 8192 else m) <= 4095.
Proof.
  intros Hm. rewrite testbit_top with (n := 12) by (simpl; lia).
  change (2 ^ 12) with 4096. destruct (Z.leb_spec 4096 m); lia.
Qed.

Lemma signed13_inj (m1 m2 : Z) :
  0 <= m1 < 8192 -> 0 <= m2 < 8192 ->
  (if Z.testbit m1 12 then m1 - 8192 else m1)
  = (if Z.testbit m2 12 then m2 - 8192 else m2) ->
  m1 = m2.
Proof.
  intros H1 H2. rewrite !testbit_top with (n := 12) by (simpl; lia).
  change (2 ^ 12) with 4096.
  destruct (Z.leb_spec 4096 m1), (Z.leb_spec 4096 m2); lia.
Qed.

Lemma temp_mask_range (word : Z) : 0 <= Z.land word tempAlertMask < 8192.
Proof.
  rewrite temp_mask_mod. apply Z.mod_pos_bound. lia.
Qed.

Lemma flag_field_bits (i : Z) :
  0 <= i ->
  Z.testbit (Z.lor tempAlertCrit (Z.lor tempAlertUpper tempAlertLower)) i
  = (13 <=? i) && (i <=? 15).
Proof.
  intros Hi.
  change (Z.lor tempAlertCrit (Z.lor tempAlertUpper tempAlertLower))
    with (Z.shiftl (Z.ones 3) 13).
  destruct (Z.leb_spec 13 i) as [Hhi|Hlo].
  - rewrite Z.shiftl_spec by exact Hi.
    destruct (Z.leb_spec i 15) as [Hin|Hout].
    + apply Z.ones_spec_low. lia.
    + apply Z.ones_spec_high. lia.
  - apply Z.shiftl_spec_low. exact Hlo.
Qed.

Lemma dev_flags_in_field (word : Z) :
  0 <= word < 65536 ->
  Z.land (Z.land word (Z.lnot tempAlertMask))
         (Z.lor tempAlertCrit (Z.lor tempAlertUpper tempAlertLower))
  = Z.land word (Z.lnot tempAlertMask).
Proof.
  intros Hw. apply Z.bits_inj'. intros i Hi.
  rewrite Z.land_spec, flag_field_bits, flag_mask_bits by assumption.
  destruct (Z.testbit word i), (13 <=? i), (i <=? 15); reflexivity.
Qed.

(** ** The operations on an arbitrary bus, continued *)

Section Coverage.

Variable Bus : Type.
Variable transport :
  message -> Bus -> (string + list (list byte)) * Bus.
Variable self : mcp9808.

Lemma bind_raise {A B} (c : M Bus A) (k : A -> M Bus B)
      w e w' :
  c w = (Raise e, w') -> bind Bus c k w = (Raise e, w').
Proof.
  intros Hc. unfold bind. rewrite Hc. reflexivity.
Qed.

(** What a register read leaves behind and what it can return, for a
    register that fits a byte. *)
Lemma getReg_cases (register : Z) (w : world Bus) :
  Py.is_byte register = true ->
  let sel := writing_bytes (addr self) register [] in
  let rd := reading (addr self) (if register <? 8 then 2 else 1) in
  let r := getReg transport self register w in
  trace (snd r)
  = trace w ++ sel :: match fst (transport sel (bus w)) with
                      | inl _ => []
                      | inr _ => [rd]
                      end /\
  ((exists raw, fst r = Ok raw /\ trace (snd r) = trace w ++ [sel; rd]) \/
   fst r = Raise (IOError readReg_error) \/
   fst r = Raise (IndexError "list index out of range")).
Proof.
  intros Hbyte. cbv zeta.
  rewrite getReg_readReg, readReg_run by exact Hbyte. cbv zeta.
  destruct (transport (writing_bytes (addr self) register []) (bus w))
    as [[e1|d1] b1]; cbn [fst snd trace]; [split; auto|].
  destruct (transport
              (reading (addr self) (if register <? 8 then 2 else 1)) b1)
    as [[e2|d2] b2]; cbn [fst snd trace]; [split; auto|].
  split; [reflexivity|].
  destruct d2 as [|raw d2]; cbn; [auto|].
  left. exists raw. split; reflexivity.
Qed.

Lemma getAmbientTemp_world (w : world Bus) :
  snd (getAmbientTemp transport self w) = snd (getReg transport self regTA w).
Proof.
  unfold getAmbientTemp, bind, lift, ret.
  destruct (getReg transport self regTA w) as [[raw|e] w1]; [|reflexivity].
  destruct (word_of raw) as [word|e]; [|reflexivity].
  destruct (getSigned (Z.land word tempAlertMask) 13); reflexivity.
Qed.

Lemma checkAlarmFlags_world flags strict (w : world Bus) :
  snd (checkAlarmFlags transport self flags strict w)
  = snd (getReg transport self regTA w).
Proof.
  unfold checkAlarmFlags, bind, lift, ret.
  destruct (getReg transport self regTA w) as [[raw|e] w1]; [|reflexivity].
  destruct (word_of raw) as [word|e]; [|reflexivity].
  destruct strict.
  - destruct (Z.land (Z.land word (Z.lnot tempAlertMask)) flags =? flags);
      reflexivity.
  - destruct (Z.land (Z.land word (Z.lnot tempAlertMask)) flags >? 0);
      reflexivity.
Qed.

Lemma getAmbientTemp_run w i2cRaw w' word :
  getReg transport self regTA w = (Ok i2cRaw, w') ->
  word_of i2cRaw = Ok word ->
  getAmbientTemp transport self w
  = (Ok (Py.mul_int_float
           (let m := Z.land word tempAlertMask in
            if Z.testbit m 12 then m - 8192 else m)
           Py.lit_0_0625), w').
Proof.
  intros Hget Hword. unfold getAmbientTemp.
  rewrite (bind_ok _ _ _ _ _ _ Hget). unfold bind, lift, ret.
  rewrite Hword, getSigned_13_run by apply temp_mask_range. reflexivity.
Qed.

Lemma getAmbientTemp_inv w t w' :
  getAmbientTemp transport self w = (Ok t, w') ->
  exists i2cRaw word,
    getReg transport self regTA w = (Ok i2cRaw, w') /\
    word_of i2cRaw = Ok word.
Proof.
  unfold getAmbientTemp, bind, lift, ret.
  destruct (getReg transport self regTA w) as [[raw|e] w1]; [|discriminate].
  destruct (word_of raw) as [word|e] eqn:Hword; [|discriminate].
  destruct (getSigned (Z.land word tempAlertMask) 13); [|discriminate].
  intros Hrun. injection Hrun as _ <-. exists raw, word.
  split; [reflexivity|exact Hword].
Qed.

Lemma checkAlarmFlags_inv flags strict w a w' :
  checkAlarmFlags transport self flags strict w = (Ok a, w') ->
  exists i2cRaw word,
    getReg transport self regTA w = (Ok i2cRaw, w') /\
    word_of i2cRaw = Ok word /\
    a = (let tempBytes := Z.land word (Z.lnot tempAlertMask) in
         if strict then Z.land tempBytes flags =? flags
         else Z.land tempBytes flags >? 0).
Proof.
  intros Hrun.
  destruct (getReg transport self regTA w) as [[raw|e] w1] eqn:Hget.
  - destruct (word_of raw) as [word|e] eqn:Hword.
    + rewrite (checkAlarmFlags_run _ _ _ _ _ _ _ _ _ Hget Hword) in Hrun.
      injection Hrun as <- <-. exists raw, word. auto.
    + unfold checkAlarmFlags in Hrun.
      rewrite (bind_ok _ _ _ _ _ _ Hget) in Hrun.
      unfold bind, lift in Hrun. rewrite Hword in Hrun. discriminate.
  - unfold checkAlarmFlags in Hrun.
    rewrite (bind_raise _ _ _ _ _ Hget) in Hrun. discriminate.
Qed.

(** ** Temperature readings *)

(** X4: a temperature that [getAmbientTemp] returns is a finite float, a
    whole number of sixteenths of a degree, between -256 and 255.9375. *)
Theorem getAmbientTemp_range w t w' :
  getAmbientTemp transport self w = (Ok t, w') ->
  exists q n,
    Py.to_Q t = Some q /\ (q == n # 16)%Q /\ -4096 <= n <= 4095 /\
    (-256 # 1 <= q)%Q /\ (q <= 4095 # 16)%Q.
Proof.
  intros Hrun.
  destruct (getAmbientTemp_inv _ _ _ Hrun) as [raw [word [Hget Hword]]].
  rewrite (getAmbientTemp_run _ _ _ _ Hget Hword) in Hrun. cbv zeta in Hrun.
  pose proof (signed13_range _ (temp_mask_range word)) as Hn.
  set (n := if Z.testbit (Z.land word tempAlertMask) 12
            then Z.land word tempAlertMask - 8192
            else Z.land word tempAlertMask) in *.
  clearbody n.
  destruct (scaled_value _ Hn) as [q [Hq Hval]].
  injection Hrun as <-.
  exists q, n. split; [exact Hq|].
  split; [|split; [exact Hn|]].
  - rewrite Hval. unfold Qeq, Qmult, inject_Z. simpl. lia.
  - split; rewrite Hval; unfold Qle, Qmult, inject_Z; simpl; lia.
Qed.

(** X5: two readings give the same temperature exactly when the words
    made of the two bytes read agree on their low 13 bits: the alert flags
    never leak into the temperature, and no two magnitudes share a
    temperature. *)
Theorem getAmbientTemp_magnitude_only w1 b0 b1 rest1 w1' w2 c0 c1 rest2 w2' :
  getReg transport self regTA w1 = (Ok (b0 :: b1 :: rest1), w1') ->
  getReg transport self regTA w2 = (Ok (c0 :: c1 :: rest2), w2') ->
  let word1 := 256 * Z.of_N (Byte.to_N b0) + Z.of_N (Byte.to_N b1) in
  let word2 := 256 * Z.of_N (Byte.to_N c0) + Z.of_N (Byte.to_N c1) in
  fst (getAmbientTemp transport self w1)
  = fst (getAmbientTemp transport self w2)
  <-> Z.land word1 tempAlertMask = Z.land word2 tempAlertMask.
Proof.
  intros Hget1 Hget2.
  rewrite (getAmbientTemp_run _ _ _ _ Hget1 (word_of_two b0 b1 rest1)).
  rewrite (getAmbientTemp_run _ _ _ _ Hget2 (word_of_two c0 c1 rest2)).
  cbv zeta. cbn [fst].
  generalize (256 * Z.of_N (Byte.to_N b0) + Z.of_N (Byte.to_N b1)).
  generalize (256 * Z.of_N (Byte.to_N c0) + Z.of_N (Byte.to_N c1)).
  intros word2 word1.
  pose proof (temp_mask_range word1) as Hm1.
  pose proof (temp_mask_range word2) as Hm2.
  pose proof (signed13_inj _ _ Hm1 Hm2) as Hinj.
  pose proof (signed13_range _ Hm1) as Hn1.
  pose proof (signed13_range _ Hm2) as Hn2.
  set (n1 := if Z.testbit (Z.land word1 tempAlertMask) 12
             then Z.land word1 tempAlertMask - 8192
             else Z.land word1 tempAlertMask) in *.
  set (n2 := if Z.testbit (Z.land word2 tempAlertMask) 12
             then Z.land word2 tempAlertMask - 8192
             else Z.land word2 tempAlertMask) in *.
  split.
  - intros Heq. apply Hinj. clearbody n1 n2.
    assert (Hfloat : Py.mul_int_float n1 Py.lit_0_0625
                     = Py.mul_int_float n2 Py.lit_0_0625) by congruence.
    destruct (scaled_value _ Hn1) as [q1 [Hq1 Hv1]].
    destruct (scaled_value _ Hn2) as [q2 [Hq2 Hv2]].
    rewrite Hfloat, Hq2 in Hq1. injection Hq1 as <-.
    rewrite Hv2 in Hv1.
    unfold Qeq, Qmult, inject_Z in Hv1. simpl in Hv1. lia.
  - intros Hmask. subst n1 n2. rewrite Hmask. reflexivity.
Qed.

(** X6: whatever the bus does, [getAmbientTemp] ends with a finite float,
    with the driver's own [IOError] or with an [IndexError], never with a
    [ValueError]; it has then issued the select of register 0x05 and at
    most the 2-byte read; a read that yields fewer than two bytes ends in
    [IndexError]. *)
Theorem getAmbientTemp_outcomes w :
  let sel := writing_bytes (addr self) regTA [] in
  let rd := reading (addr self) 2 in
  let r := getAmbientTemp transport self w in
  (trace (snd r) = trace w ++ [sel] \/
   trace (snd r) = trace w ++ [sel; rd]) /\
  ((exists t q, fst r = Ok t /\ Py.to_Q t = Some q) \/
   fst r = Raise (IOError readReg_error) \/
   (exists m, fst r = Raise (IndexError m))) /\
  (forall raw, fst (getReg transport self regTA w) = Ok raw ->
               (List.length raw < 2)%nat ->
               fst r = Raise (IndexError "bytearray index out of range")).
Proof.
  cbv zeta. rewrite getAmbientTemp_world.
  destruct (getReg_cases regTA w eq_refl) as [Htrace Hcases]. cbv zeta in *.
  change (regTA <? 8) with true in *. cbv iota in *.
  split; [|split].
  - rewrite Htrace.
    destruct (fst (transport (writing_bytes (addr self) regTA []) (bus w)));
      auto.
  - destruct (getReg transport self regTA w) as [[raw|e] w1] eqn:Hget.
    + destruct (word_of raw) as [word|e] eqn:Hword.
      * left. rewrite (getAmbientTemp_run _ _ _ _ Hget Hword).
        destruct (scaled_value _ (signed13_range _ (temp_mask_range word)))
          as [q [Hq _]].
        eexists _, q. split; [reflexivity|exact Hq].
      * right. right.
        destruct (Nat.lt_ge_cases (List.length raw) 2) as [Hlt|Hge].
        -- unfold getAmbientTemp. rewrite (bind_ok _ _ _ _ _ _ Hget).
           unfold bind, lift. rewrite (word_of_short _ Hlt).
           cbn [fst]. eauto.
        -- destruct (word_of_ok _ Hge) as [word [Hok _]]. congruence.
    + unfold getAmbientTemp. rewrite (bind_raise _ _ _ _ _ Hget).
      cbn [fst] in *.
      destruct Hcases as [[raw [Hraw _]]|[Hio|Hidx]]; [discriminate| |].
      * right. left. injection Hio as ->. reflexivity.
      * right. right. injection Hidx as ->. eexists. reflexivity.
  - intros raw Hraw Hlt.
    destruct (getReg transport self regTA w) as [r1 w1] eqn:Hget.
    cbn [fst] in Hraw. subst r1.
    unfold getAmbientTemp. rewrite (bind_ok _ _ _ _ _ _ Hget).
    unfold bind, lift. rewrite (word_of_short _ Hlt). reflexivity.
Qed.

(** ** Alarm flags, continued *)

(** X7: started in the same world, [checkAlarmFlags] and [getAmbientTemp]
    leave the same world behind and fail alike: either both return a value
    or both raise the same exception, whatever the flags and the mode. *)
Theorem checkAlarmFlags_fails_like_getAmbientTemp flags strict w :
  let c := checkAlarmFlags transport self flags strict w in
  let g := getAmbientTemp transport self w in
  snd c = snd g /\
  ((exists a t, fst c = Ok a /\ fst g = Ok t) \/
   (exists e, fst c = Raise e /\ fst g = Raise e)).
Proof.
  cbv zeta. split.
  - rewrite checkAlarmFlags_world, getAmbientTemp_world. reflexivity.
  - destruct (getReg transport self regTA w) as [[raw|e] w1] eqn:Hget.
    + destruct (word_of raw) as [word|e] eqn:Hword.
      * left.
        rewrite (checkAlarmFlags_run _ _ _ _ _ _ _ _ _ Hget Hword).
        rewrite (getAmbientTemp_run _ _ _ _ Hget Hword).
        eexists _, _. split; reflexivity.
      * right. exists e.
        unfold checkAlarmFlags, getAmbientTemp.
        rewrite !(bind_ok _ _ _ _ _ _ Hget).
        unfold bind, lift. rewrite Hword. split; reflexivity.
    + right. exists e.
      unfold checkAlarmFlags, getAmbientTemp.
      rewrite !(bind_raise _ _ _ _ _ Hget). split; reflexivity.
Qed.

(** X8: for a non-empty mask the strict answer implies the non-strict one:
    when all the requested flags are set, some requested flag is set. *)
Theorem checkAlarmFlags_strict_implies_any flags w w' :
  flags <> 0 ->
  checkAlarmFlags transport self flags true w = (Ok true, w') ->
  checkAlarmFlags transport self flags false w = (Ok true, w').
Proof.
  intros Hnz Hstrict.
  destruct (checkAlarmFlags_inv _ _ _ _ _ Hstrict)
    as [raw [word [Hget [Hword Hall]]]].
  rewrite (checkAlarmFlags_run _ _ _ _ _ _ _ _ _ Hget Hword).
  cbv zeta in *. symmetry in Hall. apply Z.eqb_eq in Hall.
  destruct (word_of_inv _ _ Hword) as [_ Hrange].
  pose proof (flag_mask_nonneg word flags ltac:(lia)) as Hnn.
  rewrite Hall in *.
  replace (flags >? 0) with true; [reflexivity|].
  symmetry. apply Z.gtb_lt. lia.
Qed.

(** X9: in non-strict mode only bits 13 to 15 of the requested mask count:
    the answer, the exception and the world are those obtained with the
    mask reduced to the three alert flags. *)
Theorem checkAlarmFlags_any_mask_bits flags w :
  checkAlarmFlags transport self flags false w
  = checkAlarmFlags transport self
      (Z.land flags (Z.lor tempAlertCrit (Z.lor tempAlertUpper tempAlertLower)))
      false w.
Proof.
  destruct (getReg transport self regTA w) as [[raw|e] w1] eqn:Hget.
  - destruct (word_of raw) as [word|e] eqn:Hword.
    + rewrite !(checkAlarmFlags_run _ _ _ _ _ _ _ _ _ Hget Hword).
      cbv zeta. destruct (word_of_inv _ _ Hword) as [_ Hrange].
      rewrite (Z.land_comm flags), Z.land_assoc.
      rewrite dev_flags_in_field by exact Hrange. reflexivity.
    + unfold checkAlarmFlags. rewrite !(bind_ok _ _ _ _ _ _ Hget).
      unfold bind, lift. rewrite Hword. reflexivity.
  - unfold checkAlarmFlags. rewrite !(bind_raise _ _ _ _ _ Hget).
    reflexivity.
Qed.

(** X10: in strict mode a mask with any bit outside the three alert flags
    is never matched: the answer is false whatever the device reports. *)
Theorem checkAlarmFlags_strict_stray_bits flags w a w' :
  Z.land flags (Z.lor tempAlertCrit (Z.lor tempAlertUpper tempAlertLower))
  <> flags ->
  checkAlarmFlags transport self flags true w = (Ok a, w') ->
  a = false.
Proof.
  intros Hstray Hrun.
  destruct (checkAlarmFlags_inv _ _ _ _ _ Hrun)
    as [raw [word [Hget [Hword Ha]]]].
  cbv zeta in Ha. destruct (word_of_inv _ _ Hword) as [_ Hrange].
  destruct a; [|reflexivity].
  exfalso. apply Hstray. symmetry in Ha. apply Z.eqb_eq in Ha.
  rewrite <- Ha at 1.
  rewrite <- Z.land_assoc, (Z.land_comm flags), Z.land_assoc.
  rewrite dev_flags_in_field by exact Hrange. exact Ha.
Qed.

(** ** Transactions *)

Lemma getReg_ok_trace register w raw w' :
  getReg transport self register w = (Ok raw, w') ->
  trace w' = trace w ++ [writing_bytes (addr self) register [];
                         reading (addr self) (if register <? 8 then 2 else 1)].
Proof.
  intros Hget.
  assert (Hbyte : Py.is_byte register = true).
  { destruct (Py.is_byte register) eqn:Hb; [reflexivity|].
    rewrite getReg_readReg, readReg_unsendable in Hget by exact Hb.
    discriminate. }
  destruct (getReg_cases register w Hbyte) as [_ Hcases].
  cbv zeta in Hcases. rewrite Hget in Hcases. cbn [fst snd] in Hcases.
  destruct Hcases as [[raw' [_ Htrace]]|[Hbad|Hbad]];
    [exact Htrace|discriminate|discriminate].
Qed.

(** X11: [__writeReg] issues one transaction or none.  When the register
    and the data both fit a byte it issues exactly the write of the
    register byte followed by the data, whatever the register, returns
    when the bus accepts it and raises the driver's own [IOError] when the
    bus refuses it; when one of them does not fit a byte, building the
    message raises [ValueError] and the bus is not touched. *)
Theorem writeReg_one_transaction_or_none register data w :
  let msg := writing_bytes (addr self) register [data] in
  let o := transport msg (bus w) in
  (0 <= register <= 255 -> 0 <= data <= 255 ->
   writeReg transport self register data w
   = (match fst o with
      | inl _ => Raise (IOError writeReg_error)
      | inr _ => Ok tt
      end,
      mkWorld (snd o) (trace w ++ [msg]))) /\
  (~ (0 <= register <= 255 /\ 0 <= data <= 255) ->
   writeReg transport self register data w
   = (Raise (ValueError Py.bytes_error), w)).
Proof.
  cbv zeta. rewrite writeReg_cases. cbv zeta. split.
  - intros Hreg Hdata.
    apply is_byte_spec in Hreg. apply is_byte_spec in Hdata.
    rewrite Hreg, Hdata. reflexivity.
  - intros Hbad.
    destruct (Py.is_byte register) eqn:Hreg;
      [|reflexivity].
    destruct (Py.is_byte data) eqn:Hdata; [|reflexivity].
    apply is_byte_spec in Hreg. apply is_byte_spec in Hdata. tauto.
Qed.

(** X12: [setConfig] always passes the guard of [setReg], but only a
    configuration that fits a byte reaches the sensor: it is then written
    to register 0x01 in a single transaction.  Any other configuration,
    the shutdown mode and the three non-zero hystereses of [__init__]
    among them, raises the [ValueError] of the byte check and leaves the
    bus untouched. *)
Theorem setConfig_low_byte_only config w :
  let msg := writing_bytes (addr self) 0x01 [config] in
  let o := transport msg (bus w) in
  fst (setConfig transport self config w)
  <> Raise (ValueError setReg_error) /\
  (0 <= config <= 255 ->
   setConfig transport self config w
   = (match fst o with
      | inl _ => Raise (IOError writeReg_error)
      | inr _ => Ok tt
      end,
      mkWorld (snd o) (trace w ++ [msg]))) /\
  (config < 0 \/ 255 < config ->
   setConfig transport self config w
   = (Raise (ValueError Py.bytes_error), w)) /\
  (In config [modeShutdown; tempHyst1_5; tempHyst3_0; tempHyst6_0] ->
   setConfig transport self config w
   = (Raise (ValueError Py.bytes_error), w)).
Proof.
  cbv zeta. unfold setConfig.
  assert (Hguard : regConfig <= regConfig <= regTCrit)
    by (unfold regConfig, regTCrit; lia).
  rewrite (setReg_guard_passes _ transport self regConfig config w Hguard).
  rewrite writeReg_cases. cbv zeta.
  change (Py.is_byte regConfig) with true. cbn [andb].
  change regConfig with 1.
  assert (Hwide : config < 0 \/ 255 < config ->
                  (if Py.is_byte config
                   then
                     (match
                        fst (transport (writing_bytes (addr self) 1 [config])
                               (bus w))
                      with
                      | inl _ => Raise (IOError writeReg_error)
                      | inr _ => Ok tt
                      end,
                      mkWorld
                        (snd (transport (writing_bytes (addr self) 1 [config])
                                (bus w)))
                        (trace w ++ [writing_bytes (addr self) 1 [config]]))
                   else (Raise (ValueError Py.bytes_error), w))
                  = (Raise (ValueError Py.bytes_error), w)).
  { intros Hbad. apply is_byte_false in Hbad. rewrite Hbad. reflexivity. }
  split; [|split; [|split]].
  - destruct (Py.is_byte config); cbn [fst].
    + destruct (fst (transport (writing_bytes (addr self) 1 [config])
                       (bus w))); discriminate.
    + unfold Py.bytes_error, setReg_error. discriminate.
  - intros Hbyte. apply is_byte_spec in Hbyte. rewrite Hbyte. reflexivity.
  - exact Hwide.
  - intros Hin. apply Hwide. right. cbn [In] in Hin.
    destruct Hin as [<-|[<-|[<-|[<-|[]]]]]; reflexivity.
Qed.

(** X13: [getReg] does not check the register against the register map.
    For every register that fits a byte, 0 and 9 to 255 included, it never
    raises [ValueError] and starts with the select on the bus; the read
    that follows an accepted select asks for 2 bytes below 8 and for 1
    byte from 8 on.  A register that does not fit a byte raises the
    [ValueError] of the byte check before the bus is touched. *)
Theorem getReg_unchecked_register register w :
  let sel := writing_bytes (addr self) register [] in
  let r := getReg transport self register w in
  let issued n :=
    trace (snd r) = trace w ++ sel :: match fst (transport sel (bus w)) with
                                      | inl _ => []
                                      | inr _ => [reading (addr self) n]
                                      end in
  (0 <= register <= 255 ->
   is_ValueError (fst r) = false /\
   (register < 8 -> issued 2) /\
   (8 <= register -> issued 1)) /\
  (register < 0 \/ 255 < register ->
   r = (Raise (ValueError Py.bytes_error), w)).
Proof.
  cbv zeta. split.
  - intros Hbyte. apply is_byte_spec in Hbyte.
    destruct (getReg_cases register w Hbyte) as [Htrace Hcases].
    cbv zeta in Htrace, Hcases. split; [|split].
    + destruct Hcases as [[raw [-> _]]|[->| ->]]; reflexivity.
    + intros Hlt. rewrite Htrace.
      replace (register <? 8) with true by (symmetry; apply Z.ltb_lt; lia).
      reflexivity.
    + intros Hge. rewrite Htrace.
      replace (register <? 8) with false by (symmetry; apply Z.ltb_ge; lia).
      reflexivity.
  - intros Hbad. apply is_byte_false in Hbad.
    rewrite getReg_readReg. apply readReg_unsendable. exact Hbad.
Qed.

(** X14: nothing is cached between operations: a temperature reading
    followed by a flag check, both successful, has selected and read
    register 0x05 twice, and the flag answer is computed from the two
    bytes of the second read. *)
Theorem reads_are_not_cached flags strict w t w1 a w2 :
  getAmbientTemp transport self w = (Ok t, w1) ->
  checkAlarmFlags transport self flags strict w1 = (Ok a, w2) ->
  let sel := writing_bytes (addr self) regTA [] in
  let rd := reading (addr self) 2 in
  trace w2 = trace w ++ [sel; rd; sel; rd] /\
  exists b0 b1 rest,
    getReg transport self regTA w1 = (Ok (b0 :: b1 :: rest), w2) /\
    let word := 256 * Z.of_N (Byte.to_N b0) + Z.of_N (Byte.to_N b1) in
    a = if strict
        then Z.land (Z.land word (Z.lnot tempAlertMask)) flags =? flags
        else Z.land (Z.land word (Z.lnot tempAlertMask)) flags >? 0.
Proof.
  intros Htemp Hflags. cbv zeta.
  destruct (getAmbientTemp_inv _ _ _ Htemp) as [raw1 [word1 [Hget1 _]]].
  destruct (checkAlarmFlags_inv _ _ _ _ _ Hflags)
    as [raw2 [word2 [Hget2 [Hword2 Ha]]]].
  split.
  - rewrite (getReg_ok_trace _ _ _ _ Hget2), (getReg_ok_trace _ _ _ _ Hget1).
    rewrite <- app_assoc. reflexivity.
  - destruct raw2 as [|b0 [|b1 rest]]; try discriminate.
    rewrite word_of_two in Hword2.
    assert (Hw : word2 = 256 * Z.of_N (Byte.to_N b0) + Z.of_N (Byte.to_N b1))
      by congruence.
    exists b0, b1, rest. split; [exact Hget2|].
    rewrite <- Hw. exact Ha.
Qed.

End Coverage.

(** ** The configuration settings *)

Lemma forallb_In {A} (f : A -> bool) (l : list A) (x : A) :
  forallb f l = true -> In x l -> f x = true.
Proof.
  intros Hall Hin. rewrite forallb_forall in Hall. apply Hall. exact Hin.
Qed.

(** X15: the settings of [__init__] combine without interfering: OR-ing
    one hysteresis, one mode, the optional locks and interrupt clear, and
    one choice for each alert setting gives an 11-bit word from which
    every choice is read back by masking with the bits of its setting,
    and in which the alert status bit is clear. *)
Theorem config_settings_independent hyst mode crit win clr out sel pol md :
  In hyst [tempHyst0; tempHyst1_5; tempHyst3_0; tempHyst6_0] ->
  In mode [modeContinuous; modeShutdown] ->
  In crit [0; lockCritTmp] ->
  In win [0; lockTempWindow] ->
  In clr [0; clearInterrupt] ->
  In out [alertOutputOff; alertOutputOn] ->
  In sel [alertSelAll; alertSelCrit] ->
  In pol [alertPinLow; alertPinHigh] ->
  In md [alertModeComp; alertModeIntrr] ->
  let config :=
    Z.lor hyst (Z.lor mode (Z.lor crit (Z.lor win (Z.lor clr
      (Z.lor out (Z.lor sel (Z.lor pol md))))))) in
  0 <= config < 2 ^ 11 /\
  Z.land config (Z.lor regCfgHyst0 regCfgHyst1) = hyst /\
  Z.land config regCfgShdn = mode /\
  Z.land config regCfgCrtLck = crit /\
  Z.land config regCfgWinLck = win /\
  Z.land config regCfgIntClr = clr /\
  Z.land config regCfgAlrtCt = out /\
  Z.land config regCfgAlrtSl = sel /\
  Z.land config regCfgAlrtPl = pol /\
  Z.land config regCfgAlrtMd = md /\
  Z.land config alertStatus = 0.
Proof.
  intros Hhyst Hmode Hcrit Hwin Hclr Hout Hsel Hpol Hmd.
  assert (Htable : config_table_ok = true) by (vm_compute; reflexivity).
  unfold config_table_ok in Htable.
  pose proof (forallb_In _ _ _ Htable Hhyst) as H1. cbv beta in H1.
  pose proof (forallb_In _ _ _ H1 Hmode) as H2. cbv beta in H2.
  pose proof (forallb_In _ _ _ H2 Hcrit) as H3. cbv beta in H3.
  pose proof (forallb_In _ _ _ H3 Hwin) as H4. cbv beta in H4.
  pose proof (forallb_In _ _ _ H4 Hclr) as H5. cbv beta in H5.
  pose proof (forallb_In _ _ _ H5 Hout) as H6. cbv beta in H6.
  pose proof (forallb_In _ _ _ H6 Hsel) as H7. cbv beta in H7.
  pose proof (forallb_In _ _ _ H7 Hpol) as H8. cbv beta in H8.
  pose proof (forallb_In _ _ _ H8 Hmd) as Hok. cbv beta in Hok.
  clear - Hok. unfold config_fields_ok in Hok. cbv zeta in *.
  repeat (apply andb_prop in Hok; destruct Hok as [Hok ?]).
  repeat match goal with
         | H : (_ =? _) = true |- _ => apply Z.eqb_eq in H
         | H : (_ <=? _) = true |- _ => apply Z.leb_le in H
         | H : (_ <? _) = true |- _ => apply Z.ltb_lt in H
         end.
  change alertStatus with regCfgAlrtSt.
  repeat split; assumption.
Qed.

(** ** The further properties on the scripted bus *)

Lemma getAmbientTemp_range_witness :
  exists q n,
    Py.to_Q (S754_finite true 4503599627370496 (-52)) = Some q /\
    (q == n # 16)%Q /\ -4096 <= n <= 4095 /\
    (-256 # 1 <= q)%Q /\ (q <= 4095 # 16)%Q.
Proof.
  exact (getAmbientTemp_range Scripted.bus Scripted.transport
           Scripted.sensor (Scripted.device [x1f; xf0]) _ _ eq_refl).
Defined.

Lemma getAmbientTemp_magnitude_only_witness :
  fst (getAmbientTemp Scripted.transport Scripted.sensor
         (Scripted.device [x01; x94]))
  = fst (getAmbientTemp Scripted.transport Scripted.sensor
           (Scripted.device [xe1; x94])).
Proof.
  apply (getAmbientTemp_magnitude_only Scripted.bus Scripted.transport
           Scripted.sensor
           (Scripted.device [x01; x94]) x01 x94 [] _
           (Scripted.device [xe1; x94]) xe1 x94 [] _
           eq_refl eq_refl).
  reflexivity.
Defined.

Lemma getAmbientTemp_outcomes_witness :
  fst (getAmbientTemp Scripted.transport Scripted.sensor
         (Scripted.device [x00]))
  = Raise (IndexError "bytearray index out of range").
Proof.
  apply (proj2 (proj2 (getAmbientTemp_outcomes Scripted.bus
                         Scripted.transport Scripted.sensor
                         (Scripted.device [x00]))) [x00]).
  - reflexivity.
  - cbn [List.length]. lia.
Defined.

Lemma checkAlarmFlags_strict_implies_any_witness :
  checkAlarmFlags Scripted.transport Scripted.sensor
    (Z.lor tempAlertCrit tempAlertLower) false (Scripted.device [xa1; x94])
  = (Ok true, mkWorld [] [writing_bytes default_addr regTA [];
                          reading default_addr 2]).
Proof.
  apply (checkAlarmFlags_strict_implies_any Scripted.bus Scripted.transport
           Scripted.sensor (Z.lor tempAlertCrit tempAlertLower)
           (Scripted.device [xa1; x94])).
  - discriminate.
  - reflexivity.
Defined.

Lemma checkAlarmFlags_strict_stray_bits_witness :
  exists a,
    fst (checkAlarmFlags Scripted.transport Scripted.sensor 0x8001 true
           (Scripted.device [xe0; x00])) = Ok a /\
    a = false.
Proof.
  exists false. split; [reflexivity|].
  apply (checkAlarmFlags_strict_stray_bits Scripted.bus Scripted.transport
           Scripted.sensor 0x8001 (Scripted.device [xe0; x00]) false
           (mkWorld [] [writing_bytes default_addr regTA [];
                        reading default_addr 2])).
  - discriminate.
  - reflexivity.
Defined.

Lemma getReg_unchecked_register_witness :
  trace (snd (getReg Scripted.transport Scripted.sensor 0
                (Scripted.device [x00; x00])))
  = [writing_bytes default_addr 0 []; reading default_addr 2] /\
  trace (snd (getReg Scripted.transport Scripted.sensor 200
                (Scripted.device [x00])))
  = [writing_bytes default_addr 200 []; reading default_addr 1] /\
  getReg Scripted.transport Scripted.sensor (-1) (Scripted.device [x00])
  = (Raise (ValueError Py.bytes_error), Scripted.device [x00]).
Proof.
  split; [|split].
  - pose proof (proj1 (getReg_unchecked_register Scripted.bus
                         Scripted.transport Scripted.sensor 0
                         (Scripted.device [x00; x00]))) as H.
    destruct H as [_ [Hlow _]]; [lia|]. apply Hlow. lia.
  - pose proof (proj1 (getReg_unchecked_register Scripted.bus
                         Scripted.transport Scripted.sensor 200
                         (Scripted.device [x00]))) as H.
    destruct H as [_ [_ Hhigh]]; [lia|]. apply Hhigh. lia.
  - apply (proj2 (getReg_unchecked_register Scripted.bus
                    Scripted.transport Scripted.sensor (-1)
                    (Scripted.device [x00]))).
    lia.
Defined.

Lemma writeReg_one_transaction_or_none_witness :
  writeReg Scripted.transport Scripted.sensor regRes 3 (Scripted.device [])
  = (Ok tt, mkWorld [inr [[]]] [writing_bytes default_addr regRes [3]]) /\
  writeReg Scripted.transport Scripted.sensor regConfig 0x0100
    (Scripted.device [])
  = (Raise (ValueError Py.bytes_error), Scripted.device []).
Proof.
  split.
  - apply (proj1 (writeReg_one_transaction_or_none Scripted.bus
                    Scripted.transport Scripted.sensor regRes 3
                    (Scripted.device []))); unfold regRes; lia.
  - apply (proj2 (writeReg_one_transaction_or_none Scripted.bus
                    Scripted.transport Scripted.sensor regConfig 0x0100
                    (Scripted.device []))).
    lia.
Defined.

Lemma setConfig_low_byte_only_witness :
  setConfig Scripted.transport Scripted.sensor
    (Z.lor alertOutputOn alertModeIntrr) (Scripted.device [])
  = (Ok tt, mkWorld [inr [[]]]
              [writing_bytes default_addr regConfig
                 [Z.lor alertOutputOn alertModeIntrr]]) /\
  setConfig Scripted.transport Scripted.sensor modeShutdown
    (Scripted.device [])
  = (Raise (ValueError Py.bytes_error), Scripted.device []).
Proof.
  split.
  - apply (proj1 (proj2 (setConfig_low_byte_only Scripted.bus
                           Scripted.transport Scripted.sensor
                           (Z.lor alertOutputOn alertModeIntrr)
                           (Scripted.device [])))).
    simpl. lia.
  - apply (proj2 (proj2 (proj2 (setConfig_low_byte_only Scripted.bus
                                  Scripted.transport Scripted.sensor
                                  modeShutdown (Scripted.device []))))).
    left. reflexivity.
Defined.

Lemma reads_are_not_cached_witness :
  trace (snd (checkAlarmFlags Scripted.transport Scripted.sensor
                tempAlertLower false
                (snd (getAmbientTemp Scripted.transport Scripted.sensor
                        (Scripted.drifting [x01; x94] [xa1; x94])))))
  = [writing_bytes default_addr regTA []; reading default_addr 2;
     writing_bytes default_addr regTA []; reading default_addr 2].
Proof.
  exact (proj1 (reads_are_not_cached Scripted.bus Scripted.transport
                  Scripted.sensor tempAlertLower false
                  (Scripted.drifting [x01; x94] [xa1; x94])
                  _ _ true _ eq_refl eq_refl)).
Defined.

Lemma config_settings_independent_witness :
  Z.land
    (Z.lor tempHyst6_0 (Z.lor modeShutdown (Z.lor 0 (Z.lor lockTempWindow
       (Z.lor 0 (Z.lor alertOutputOn (Z.lor alertSelAll
          (Z.lor alertPinHigh alertModeIntrr))))))))
    (Z.lor regCfgHyst0 regCfgHyst1)
  = tempHyst6_0.
Proof.
  pose proof (config_settings_independent tempHyst6_0 modeShutdown 0
                lockTempWindow 0 alertOutputOn alertSelAll alertPinHigh
                alertModeIntrr) as H.
  cbv zeta in H. cbn [In] in H.
  destruct H as [_ [Hhyst _]]; auto 10.
Defined.
